(** * alexandria.core.filters: query filters over the ORM

    A shallow embedding of [src/alexandria/core/filters.py]: the three
    filter classes ([JSONValueFilter], [ActiveGroupFilter], [TagsFilter])
    and the filter-set registrations that configure them.

    Python values are a small inductive universe, exceptions are an
    explicit result type, the lazily built queryset is the log of ORM calls
    made on it, and the database is a store threaded through the one
    filter that queries it. *)

From Stdlib Require Import ZArith List Ascii String DecimalString Bool.
From stdpp Require Import base option list gmap strings.

Set Warnings "-register-all".
Local Open Scope list_scope.
Local Open Scope string_scope.

(** ** Python values *)

(** The values that reach the filters: what [json.loads] produces and what
    the filtering framework hands over after cleaning a query parameter.
    A float is carried by its [repr]; the filters never compute with it.
    A [dict] decoded from JSON has string keys and keeps insertion order. *)
Inductive pyval : Type :=
| PNone
| PBool (b : bool)
| PInt (z : Z)
| PFloat (repr : string)
| PStr (s : string)
| PList (l : list pyval)
| PDict (d : list (string * pyval)).

(** ** Exceptions and results *)

Inductive exn : Type :=
| ValidationError (detail : string)   (* rest_framework.exceptions *)
| TypeError
| AttributeError
| KeyError
| FieldDoesNotExist                   (* Options.get_field *)
| DoesNotExist                        (* Tag.objects.get *)
| FieldError                          (* django.core.exceptions *)
| ValueError
| OtherError (name : string).

(** What a call on a queryset can raise while it resolves its arguments.
    The ORM knows nothing of the web framework, so the framework's
    [ValidationError] is not among them. *)
Inductive orm_exn : Type :=
| orm_FieldError
| orm_TypeError
| orm_ValueError
| orm_Other (name : string).

Definition orm_raise (e : orm_exn) : exn :=
  match e with
  | orm_FieldError => FieldError
  | orm_TypeError => TypeError
  | orm_ValueError => ValueError
  | orm_Other name => OtherError name
  end.

Inductive result (A : Type) : Type :=
| Ok (a : A)
| Raise (e : exn).
Arguments Ok {A} a.
Arguments Raise {A} e.

Global Instance result_ret : MRet result := fun A a => Ok a.
Global Instance result_bind : MBind result := fun A B f m =>
  match m with
  | Ok a => f a
  | Raise e => Raise e
  end.

Definition is_Ok {A} (r : result A) : bool :=
  match r with Ok _ => true | Raise _ => false end.


(** ** Built-in operations used by the filters *)

(** [value in EMPTY_VALUES], with
    [EMPTY_VALUES = ([], (), {}, "", None)] from [django_filters.constants].
    Membership in a tuple is [==] against each member: a list equals only a
    list with equal items, a dict only a dict, a string only a string, and
    [None] only [None]; no value of [pyval] is a tuple. *)
Definition in_EMPTY_VALUES (v : pyval) : bool :=
  match v with
  | PList [] => true
  | PDict [] => true
  | PStr "" => true
  | PNone => true
  | _ => false
  end.

(** [v == s] for a string [s]: only an equal string is equal to it. *)
Definition py_eq_str (v : pyval) (s : string) : bool :=
  match v with
  | PStr t => String.eqb t s
  | _ => false
  end.

(** [sub in s] on two strings. *)
Fixpoint str_contains (sub s : string) : bool :=
  String.prefix sub s ||
  match s with
  | EmptyString => false
  | String _ rest => str_contains sub rest
  end.

(** [dict.get] and [in] on the keys of a decoded object. *)
Fixpoint dict_get (d : list (string * pyval)) (k : string) : option pyval :=
  match d with
  | [] => None
  | (k', v) :: rest => if String.eqb k' k then Some v else dict_get rest k
  end.

Definition dict_has (d : list (string * pyval)) (k : string) : bool :=
  existsb (fun kv => String.eqb (fst kv) k) d.

(** [s in v] for a string [s]: key membership on a dict, item membership on
    a list, substring on a string; the other types are not containers. *)
Definition py_contains (s : string) (v : pyval) : result bool :=
  match v with
  | PDict d => Ok (dict_has d s)
  | PList l => Ok (existsb (fun x => py_eq_str x s) l)
  | PStr t => Ok (str_contains s t)
  | _ => Raise TypeError
  end.

(** [v.get(k, dflt)]: only a dict has the method. *)
Definition py_get (v : pyval) (k : string) (dflt : pyval) : result pyval :=
  match v with
  | PDict d => Ok (default dflt (dict_get d k))
  | _ => Raise AttributeError
  end.

(** [v[k]] for a string [k]: a dict raises [KeyError] on a missing key; a
    list or a string takes integer indices only. *)
Definition py_getitem (v : pyval) (k : string) : result pyval :=
  match v with
  | PDict d => match dict_get d k with
               | Some x => Ok x
               | None => Raise KeyError
               end
  | _ => Raise TypeError
  end.

(** [isinstance(v, str)] and [isinstance(v, dict)]. *)
Definition is_str (v : pyval) : bool :=
  match v with PStr _ => true | _ => false end.

Definition is_dict (v : pyval) : bool :=
  match v with PDict _ => true | _ => false end.

(** The items a [for] loop draws from [v]: the items of a list, the
    one-character strings of a string, the keys of a dict; the other types
    are not iterable. *)
Definition chars (s : string) : list pyval :=
  map (fun c => PStr (String c EmptyString)) (list_ascii_of_string s).

Definition py_iter (v : pyval) : result (list pyval) :=
  match v with
  | PList l => Ok l
  | PStr s => Ok (chars s)
  | PDict d => Ok (map (fun kv => PStr (fst kv)) d)
  | _ => Raise TypeError
  end.

(** [hash(v)] succeeds: lists and dicts are unhashable, so testing them for
    membership in a dict raises [TypeError]. *)
Definition hashable (v : pyval) : bool :=
  match v with
  | PList _ | PDict _ => false
  | _ => true
  end.

(** [v in d] where [d] is a dict whose keys are the strings [keys]. *)
Definition in_dict_keys (v : pyval) (keys : list string) : result bool :=
  if hashable v then Ok (existsb (py_eq_str v) keys) else Raise TypeError.

(** The double quote. *)
Definition dq : string := String "034"%char "".

Definition str_of_int (z : Z) : string := NilZero.string_of_int (Z.to_int z).

(** ** The ORM: models, fields, querysets *)

(** The model classes the filter sets are registered on, and the synonym
    grouping that [Tag.tag_synonym_group] refers to. *)
Inductive Model : Type :=
| Category
| Document
| File
| Tag
| TagSynonymGroup.

(** What [_valid_lookups] reads off the object [get_field] returns:
    [related_model] ([None] unless it is a relation) and the names in
    [get_lookups()].  The object that stands for the reverse side of a
    relation has no [get_lookups]: that is [None] here. *)
Record Field : Type := {
  related_model : option Model;
  get_lookups : option (list string)
}.

(** An expression a queryset is annotated with. *)
Inductive expression : Type :=
| KeyTextTransform (key : pyval) (field : string).

(** The right-hand side of a keyword lookup: a Python value, or the
    queryset of tags of a synonym group, given by their primary keys. *)
Inductive lookup_arg : Type :=
| ArgValue (v : pyval)
| ArgTags (synonyms : list string).

(** One call made on a queryset. *)
Inductive orm_call : Type :=
| annotate_call (alias : string) (e : expression)
| filter_call (lookup : string) (arg : lookup_arg).

(** The host the module runs on; none of it is part of this module.
    - [json.loads] ([None] stands for [JSONDecodeError]); the empty text is
      not a JSON document.
    - The model metadata [Model._meta.get_field] ([None] stands for
      [FieldDoesNotExist]).
    - [repr] on a string.
    - The check [QuerySet.annotate] and [QuerySet.filter] make when called:
      they resolve the alias or the keyword and its value against the
      model at once, and raise when that fails ([None]: the call is
      taken). *)
Class Host : Type := {
  json_loads : string -> option pyval;
  json_loads_empty : json_loads "" = None;
  get_field : Model -> string -> option Field;
  repr_str : string -> string;
  orm_refuses : Model -> orm_call -> option orm_exn
}.

(** *** Formatting: [str] and [repr] *)

Section Formatting.
Context `{Host}.

Fixpoint py_repr (v : pyval) : string :=
  match v with
  | PNone => "None"
  | PBool true => "True"
  | PBool false => "False"
  | PInt z => str_of_int z
  | PFloat r => r
  | PStr s => repr_str s
  | PList l => "[" ++ String.concat ", " (map py_repr l) ++ "]"
  | PDict d =>
      "{" ++ String.concat ", "
               (map (fun kv => repr_str (fst kv) ++ ": " ++ py_repr (snd kv)) d)
          ++ "}"
  end.

(** [str(v)], which is what an f-string field [{v}] inserts. *)
Definition py_str (v : pyval) : string :=
  match v with
  | PStr s => s
  | _ => py_repr v
  end.

End Formatting.

(** A queryset is lazy: it is its model and the calls made on it so far. *)
Record QuerySet : Type := {
  model : Model;
  query : list orm_call
}.

(** The queryset with further calls made on it. *)
Definition extend (qs : QuerySet) (calls : list orm_call) : QuerySet :=
  {| model := model qs; query := (query qs ++ calls)%list |}.

Section Calls.
Context `{Host}.

(** A call on the queryset: refused with the host's error, or taken and
    added to the calls made. *)
Definition qs_call (qs : QuerySet) (c : orm_call) : result QuerySet :=
  match orm_refuses (model qs) c with
  | Some e => Raise (orm_raise e)
  | None => Ok (extend qs [c])
  end.

Definition qs_annotate (qs : QuerySet) (alias : string) (e : expression) : result QuerySet :=
  qs_call qs (annotate_call alias e).

Definition qs_filter (qs : QuerySet) (lookup : string) (arg : lookup_arg) : result QuerySet :=
  qs_call qs (filter_call lookup arg).

End Calls.

(** ** Filters and their filter set *)

Record User : Type := { groups : list string }.
Record Request : Type := { user : User }.
Record FilterSet : Type := { request : Request }.

(** The attributes of a filter instance the methods read. *)
Record Filter : Type := {
  field_name : string;
  lookup_expr : string;
  parent : FilterSet
}.

(** [s.split("__")]. *)
Fixpoint split_dunder_from (s acc : string) : list string :=
  match s with
  | EmptyString => [acc]
  | String "_" (String "_" rest) => acc :: split_dunder_from rest ""
  | String c rest => split_dunder_from rest (acc ++ String c "")
  end.

Definition split_dunder (s : string) : list string := split_dunder_from s "".

Module JSONValueFilter.
Section Methods.
Context `{Host}.

(** [model._meta.get_field(name)]; [model] is [None] after traversing a
    field that is not a relation. *)
Definition meta_get_field (m : option Model) (name : string) : result Field :=
  match m with
  | None => Raise AttributeError
  | Some m =>
      match get_field m name with
      | Some f => Ok f
      | None => Raise FieldDoesNotExist
      end
  end.

(** The loop [for field in traversals]. *)
Fixpoint traverse (m : option Model) (traversals : list string) : result (option Model) :=
  match traversals with
  | [] => Ok m
  | field :: rest =>
      f ← meta_get_field m field;
      traverse (related_model f) rest
  end.

Definition _valid_lookups (self : Filter) (qs : QuerySet) : result (list string) :=
  let traversals := split_dunder (field_name self) in
  let actual_field := List.last traversals "" in
  let traversals := List.removelast traversals in
  m ← traverse (Some (model qs)) traversals;
  f ← meta_get_field m actual_field;
  match get_lookups f with
  | Some lookups => Ok lookups
  | None => Raise AttributeError
  end.

Definition msg_not_json : string :=
  "JSONValueFilter value needs to be json encoded.".

Definition msg_key_value : string :=
  "JSONValueFilter value needs to have a " ++ dq ++ "key" ++ dq ++ " and "
    ++ dq ++ "value" ++ dq ++ " and an optional " ++ dq ++ "lookup" ++ dq
    ++ " key.".

Definition msg_lookup (lookup_expr : pyval) (self : Filter) (valid_lookups : list string) : string :=
  "Lookup expression " ++ dq ++ py_str lookup_expr ++ dq
    ++ " not allowed for field " ++ dq ++ field_name self ++ dq
    ++ ". Valid expressions: " ++ String.concat ", " valid_lookups.

(** One turn of the loop [for expr in value]. *)
Definition filter_entry (self : Filter) (valid_lookups : list string)
    (qs : QuerySet) (expr : pyval) : result QuerySet :=
  if in_EMPTY_VALUES expr then Ok qs else
  has_key ← py_contains "key" expr;
  has_value ← py_contains "value" expr;
  if negb (has_key && has_value) then Raise (ValidationError msg_key_value) else
  lookup_expr ← py_get expr "lookup" (PStr (lookup_expr self));
  allowed ← in_dict_keys lookup_expr valid_lookups;
  if negb allowed
  then Raise (ValidationError (msg_lookup lookup_expr self valid_lookups)) else
  v ← py_getitem expr "value";
  if is_str v then
    k ← py_getitem expr "key";
    qs ← qs_annotate qs "field_val" (KeyTextTransform k (field_name self));
    v ← py_getitem expr "value";
    qs_filter qs ("field_val__" ++ py_str lookup_expr) (ArgValue v)
  else
    k ← py_getitem expr "key";
    v ← py_getitem expr "value";
    qs_filter qs
      (field_name self ++ "__" ++ py_str k ++ "__" ++ py_str lookup_expr)
      (ArgValue v).

Fixpoint filter_loop (self : Filter) (valid_lookups : list string)
    (qs : QuerySet) (entries : list pyval) : result QuerySet :=
  match entries with
  | [] => Ok qs
  | expr :: rest =>
      qs ← filter_entry self valid_lookups qs expr;
      filter_loop self valid_lookups qs rest
  end.

(** [json.loads(value)] under the [try]: a decoding failure becomes a
    [ValidationError]; an argument that is not text is a [TypeError]. *)
Definition loads (value : pyval) : result pyval :=
  match value with
  | PStr s =>
      match json_loads s with
      | Some v => Ok v
      | None => Raise (ValidationError msg_not_json)
      end
  | _ => Raise TypeError
  end.

Definition filter (self : Filter) (qs : QuerySet) (value : pyval) : result QuerySet :=
  if in_EMPTY_VALUES value then Ok qs else
  valid_lookups ← _valid_lookups self qs;
  value ← loads value;
  let value := if is_dict value then PList [value] else value in
  entries ← py_iter value;
  filter_loop self valid_lookups qs entries.

End Methods.
End JSONValueFilter.

Module ActiveGroupFilter.
Section Methods.
Context `{Host}.

Definition msg_not_assigned (value : pyval) : string :=
  "Active group '" ++ py_str value ++ "' is not part of user's assigned groups".

Definition filter (self : Filter) (qs : QuerySet) (value : pyval) : result QuerySet :=
  if in_EMPTY_VALUES value then Ok qs else
  if negb (existsb (py_eq_str value) (groups (user (request (parent self)))))
  then Raise (ValidationError (msg_not_assigned value))
  else Ok qs.

End Methods.
End ActiveGroupFilter.

(** ** The database *)

(** A row of the tag table: the foreign key to its synonym group. *)
Record TagRow : Type := { tag_synonym_group : option string }.

(** The stored data the filters can reach: the tag table by primary key,
    and the tags each document carries. *)
Record Store : Type := {
  Tag_objects : gmap string TagRow;
  Document_tags : gmap string (list string)
}.

(** [group.tags]: the reverse side of [Tag.tag_synonym_group], that is, the
    stored tags whose foreign key is [group], by primary key. *)
Definition synonym_group_tags (st : Store) (group : string) : list string :=
  omap (fun kv : string * TagRow =>
          if bool_decide (tag_synonym_group kv.2 = Some group)
          then Some kv.1 else None)
       (map_to_list (Tag_objects st)).

(** A computation against the database: it may change the store, and it
    returns or raises. *)
Definition DB (A : Type) : Type := Store -> Store * result A.

Global Instance DB_ret : MRet DB := fun A a st => (st, Ok a).
Global Instance DB_bind : MBind DB := fun A B f m st =>
  match m st with
  | (st', Ok a) => f a st'
  | (st', Raise e) => (st', Raise e)
  end.

Definition raise {A} (e : exn) : DB A := fun st => (st, Raise e).

(** A call that does not query the database, such as the lazy
    [QuerySet.filter]. *)
Definition no_query {A} (r : result A) : DB A := fun st => (st, r).

(** [models.Tag.objects.get(pk=key)]. *)
Definition Tag_objects_get (key : string) : DB TagRow := fun st =>
  match Tag_objects st !! key with
  | Some row => (st, Ok row)
  | None => (st, Raise DoesNotExist)
  end.

(** Evaluating [group.tags.all()], as the truth test [if synonyms:] does. *)
Definition tags_all (group : string) : DB (list string) := fun st =>
  (st, Ok (synonym_group_tags st group)).

(** The value a comma-separated parameter is cleaned to: [None], or the
    list of its parts. *)
Definition csv_value (value : option (list string)) : pyval :=
  match value with
  | None => PNone
  | Some keys => PList (map PStr keys)
  end.

Module TagsFilter.
Section Methods.
Context `{Host}.

(** One turn of the loop [for key in value]. *)
Definition filter_key (qs : QuerySet) (key : string) : DB QuerySet :=
  tag_obj ← Tag_objects_get key;
  match tag_synonym_group tag_obj with
  | Some group =>
      synonyms ← tags_all group;
      match synonyms with
      | _ :: _ => no_query (qs_filter qs "tags__in" (ArgTags synonyms))
      | [] => mret qs
      end
  | None => no_query (qs_filter qs "tags__pk" (ArgValue (PStr key)))
  end.

Fixpoint filter_loop (qs : QuerySet) (keys : list string) : DB QuerySet :=
  match keys with
  | [] => mret qs
  | key :: rest =>
      qs ← filter_key qs key;
      filter_loop qs rest
  end.

Definition filter (self : Filter) (qs : QuerySet) (value : option (list string)) : DB QuerySet :=
  if in_EMPTY_VALUES (csv_value value) then mret qs else
  match value with
  | Some keys => filter_loop qs keys
  | None => raise TypeError
  end.

End Methods.
End TagsFilter.

(** ** The filter sets *)

(** [django_filters] gives a filter built without [lookup_expr] the
    default lookup. *)
Definition DEFAULT_LOOKUP_EXPR : string := "exact".

Definition JSONValueFilter_new (field_name : string) (parent : FilterSet) : Filter :=
  {| field_name := field_name; lookup_expr := DEFAULT_LOOKUP_EXPR; parent := parent |}.

(** A filter built without [field_name] is named after its attribute. *)
Definition ActiveGroupFilter_new (parent : FilterSet) : Filter :=
  {| field_name := "active_group"; lookup_expr := DEFAULT_LOOKUP_EXPR; parent := parent |}.

Definition TagsFilter_new (parent : FilterSet) : Filter :=
  {| field_name := "tags"; lookup_expr := "in"; parent := parent |}.

Module CategoryFilterSet.
Definition meta := JSONValueFilter_new "meta".
Definition active_group := ActiveGroupFilter_new.
Definition Meta_model := Category.
End CategoryFilterSet.

Module DocumentFilterSet.
Definition meta := JSONValueFilter_new "meta".
Definition active_group := ActiveGroupFilter_new.
Definition tags := TagsFilter_new.
Definition Meta_model := Document.
End DocumentFilterSet.

Module FileFilterSet.
Definition meta := JSONValueFilter_new "meta".
Definition active_group := ActiveGroupFilter_new.
Definition Meta_model := File.
End FileFilterSet.

Module TagFilterSet.
Definition meta := JSONValueFilter_new "meta".
Definition active_group := ActiveGroupFilter_new.
Definition with_documents_meta := JSONValueFilter_new "documents__meta".
Definition Meta_model := Tag.
End TagFilterSet.

(** ** A reference host *)

(** A decoder for the fragment of JSON without fractional numbers and
    without [\u] escapes; it rejects what lies outside the fragment. *)
Module Json.

Definition is_ws (c : ascii) : bool :=
  let n := N_of_ascii c in
  ((n =? 32) || (n =? 9) || (n =? 10) || (n =? 13))%N.

Fixpoint skip_ws (s : string) : string :=
  match s with
  | String c rest => if is_ws c then skip_ws rest else s
  | EmptyString => s
  end.

Definition digit (c : ascii) : option Z :=
  let n := N_of_ascii c in
  if ((48 <=? n) && (n <=? 57))%N then Some (Z.of_N (n - 48)) else None.

Fixpoint digits (s : string) (acc : Z) : Z * string :=
  match s with
  | String c rest =>
      match digit c with
      | Some d => digits rest (10 * acc + d)%Z
      | None => (acc, s)
      end
  | EmptyString => (acc, s)
  end.

(** An optional minus sign, then zero or a numeral without leading zero,
    not followed by a fraction or an exponent. *)
Definition natural (s : string) : option (Z * string) :=
  match s with
  | String c rest =>
      match digit c with
      | Some 0%Z => Some (0%Z, rest)
      | Some d => Some (digits rest d)
      | None => None
      end
  | EmptyString => None
  end.

Definition not_float (s : string) : bool :=
  match s with
  | String c _ =>
      negb (Ascii.eqb c "." || Ascii.eqb c "e" || Ascii.eqb c "E")
  | EmptyString => true
  end.

Definition integer (s : string) : option (pyval * string) :=
  match s with
  | String "-" rest =>
      match natural rest with
      | Some (z, rest') => if not_float rest' then Some (PInt (- z), rest') else None
      | None => None
      end
  | _ =>
      match natural s with
      | Some (z, rest') => if not_float rest' then Some (PInt z, rest') else None
      | None => None
      end
  end.

Definition escape (c : ascii) : option ascii :=
  match c with
  | "034" => Some "034"
  | "\" => Some "\"
  | "/" => Some "/"
  | "b" => Some "008"
  | "f" => Some "012"
  | "n" => Some "010"
  | "r" => Some "013"
  | "t" => Some "009"
  | _ => None
  end%char.

(** The text of a string literal after its opening quote. *)
Fixpoint chars_until_quote (s acc : string) : option (string * string) :=
  match s with
  | EmptyString => None
  | String c rest =>
      if Ascii.eqb c "034" then Some (acc, rest)
      else if Ascii.eqb c "\" then
        match rest with
        | String e rest' =>
            match escape e with
            | Some ch => chars_until_quote rest' (acc ++ String ch "")
            | None => None
            end
        | EmptyString => None
        end
      else if (N_of_ascii c <? 32)%N then None
      else chars_until_quote rest (acc ++ String c "")
  end.

Definition strip_prefix (p s : string) : option string :=
  if String.prefix p s
  then Some (String.substring (String.length p) (String.length s - String.length p) s)
  else None.

(** A later member with the same name replaces the value of the earlier
    one and keeps its place. *)
Fixpoint dict_set (d : list (string * pyval)) (k : string) (v : pyval) : list (string * pyval) :=
  match d with
  | [] => [(k, v)]
  | (k', v') :: rest =>
      if String.eqb k' k then (k', v) :: rest else (k', v') :: dict_set rest k v
  end.

Section Containers.
Variable value : string -> option (pyval * string).

(** The items of a non-empty array, separated by commas. *)
Fixpoint items (fuel : nat) (s : string) (acc : list pyval) : option (list pyval * string) :=
  match fuel with
  | O => None
  | S fuel =>
      match value (skip_ws s) with
      | Some (v, rest) =>
          match skip_ws rest with
          | String "," rest' => items fuel rest' (acc ++ [v])%list
          | String "]" rest' => Some ((acc ++ [v])%list, rest')
          | _ => None
          end
      | None => None
      end
  end.

Fixpoint members (fuel : nat) (s : string) (acc : list (string * pyval))
    : option (list (string * pyval) * string) :=
  match fuel with
  | O => None
  | S fuel =>
      match skip_ws s with
      | String "034" rest =>
          match chars_until_quote rest "" with
          | Some (k, rest) =>
              match skip_ws rest with
              | String ":" rest =>
                  match value (skip_ws rest) with
                  | Some (v, rest) =>
                      match skip_ws rest with
                      | String "," rest' => members fuel rest' (dict_set acc k v)
                      | String "}" rest' => Some (dict_set acc k v, rest')
                      | _ => None
                      end
                  | None => None
                  end
              | _ => None
              end
          | None => None
          end
      | _ => None
      end
  end.
End Containers.

(** One value at the head of [s], which starts at a non-blank. *)
Fixpoint value (fuel : nat) (s : string) : option (pyval * string) :=
  match fuel with
  | O => None
  | S fuel =>
      match s with
      | String "n" _ => rest ← strip_prefix "null" s; Some (PNone, rest)
      | String "t" _ => rest ← strip_prefix "true" s; Some (PBool true, rest)
      | String "f" _ => rest ← strip_prefix "false" s; Some (PBool false, rest)
      | String "034" rest =>
          '(t, rest) ← chars_until_quote rest ""; Some (PStr t, rest)
      | String "[" rest =>
          match skip_ws rest with
          | String "]" rest' => Some (PList [], rest')
          | rest => '(l, rest) ← items (value fuel) fuel rest []; Some (PList l, rest)
          end
      | String "{" rest =>
          match skip_ws rest with
          | String "}" rest' => Some (PDict [], rest')
          | rest => '(d, rest) ← members (value fuel) fuel rest []; Some (PDict d, rest)
          end
      | _ => integer s
      end
  end.

Definition loads (s : string) : option pyval :=
  match value (S (String.length s)) (skip_ws s) with
  | Some (v, rest) =>
      match skip_ws rest with
      | EmptyString => Some v
      | _ => None
      end
  | None => None
  end.

End Json.
(** [repr] on a string of ASCII text; what is not printable ASCII is
    written as an escape. *)
Module Repr.

Definition hex_digit (n : N) : ascii :=
  match n with
  | 0 => "0" | 1 => "1" | 2 => "2" | 3 => "3" | 4 => "4" | 5 => "5"
  | 6 => "6" | 7 => "7" | 8 => "8" | 9 => "9" | 10 => "a" | 11 => "b"
  | 12 => "c" | 13 => "d" | 14 => "e" | _ => "f"
  end%N%char.

(** One character of the [repr] of a string quoted with [q]. *)
Definition repr_char (q c : ascii) : string :=
  let n := N_of_ascii c in
  if Ascii.eqb c "\" then "\\"
  else if Ascii.eqb c q then String "\" (String q "")
  else if (n =? 10)%N then "\n"
  else if (n =? 13)%N then "\r"
  else if (n =? 9)%N then "\t"
  else if ((n <? 32) || (126 <? n))%N
       then String "\" (String "x" (String (hex_digit (n / 16)) (String (hex_digit (n mod 16)) "")))
  else String c "".

(** Single quotes, unless the string has a single quote and no double
    quote. *)
Definition repr_str (s : string) : string :=
  let q : ascii :=
    if str_contains "'" s && negb (str_contains dq s) then "034"%char else "'"%char in
  String q (String.concat "" (map (repr_char q) (list_ascii_of_string s)))
    ++ String q "".

End Repr.

(** Modelled from the spec: [alexandria.core.models] is not part of this
    module.  The models carry JSON-valued metadata fields and the tag
    relations; the relations named here are the ones the filter sets
    traverse.  [Document.tags] and [Tag.tag_synonym_group] are the forward
    sides; [Tag.documents] and the synonym group's [tags] are the reverse
    sides.  The lookup names stand for those the ORM registers. *)
Module Models.

Definition json_lookups : list string :=
  ["exact"; "iexact"; "contains"; "icontains"; "startswith"; "istartswith";
   "endswith"; "iendswith"; "gt"; "gte"; "lt"; "lte"; "in"; "isnull";
   "has_key"; "contained_by"].

Definition relation_lookups : list string :=
  ["exact"; "in"; "isnull"; "gt"; "gte"; "lt"; "lte"].

(** The lookups of the text that [KeyTextTransform] gives. *)
Definition text_lookups : list string :=
  ["exact"; "iexact"; "contains"; "icontains"; "startswith"; "istartswith";
   "endswith"; "iendswith"; "gt"; "gte"; "lt"; "lte"; "in"; "isnull";
   "range"; "regex"; "iregex"].

Definition JSONField : Field :=
  {| related_model := None; get_lookups := Some json_lookups |}.

Definition relation (to : Model) : Field :=
  {| related_model := Some to; get_lookups := Some relation_lookups |}.

Definition reverse_relation (to : Model) : Field :=
  {| related_model := Some to; get_lookups := None |}.

Definition get_field (m : Model) (name : string) : option Field :=
  match m with
  | Category =>
      if String.eqb name "meta" then Some JSONField else None
  | Document =>
      if String.eqb name "meta" then Some JSONField
      else if String.eqb name "tags" then Some (relation Tag)
      else if String.eqb name "category" then Some (relation Category)
      else None
  | File =>
      if String.eqb name "meta" then Some JSONField else None
  | Tag =>
      if String.eqb name "meta" then Some JSONField
      else if String.eqb name "documents" then Some (reverse_relation Document)
      else if String.eqb name "tag_synonym_group" then Some (relation TagSynonymGroup)
      else None
  | TagSynonymGroup =>
      if String.eqb name "tags" then Some (reverse_relation Tag) else None
  end.

(** A sample of the check the ORM makes on a call, enough for the sample
    data.  An annotation may not take the name of a field, and the field
    it reads has to exist.  A keyword has to start at [field_val] or at a
    field of the model; through [field_val] it has to end in a lookup of
    text; and the lookups [in] and [range] need a value to run over. *)
Definition has_field (m : Model) (name : string) : bool :=
  match get_field m name with Some _ => true | None => false end.

Definition first_segment (path : string) : string :=
  match split_dunder path with
  | first :: _ => first
  | [] => ""
  end.

Definition is_scalar_arg (arg : lookup_arg) : bool :=
  match arg with
  | ArgValue (PNone | PBool _ | PInt _ | PFloat _) => true
  | _ => false
  end.

Definition orm_refuses (m : Model) (c : orm_call) : option orm_exn :=
  match c with
  | annotate_call alias (KeyTextTransform _ field) =>
      if has_field m alias then Some orm_ValueError
      else if has_field m (first_segment field) then None
      else Some orm_FieldError
  | filter_call lookup arg =>
      let last := List.last (split_dunder lookup) "" in
      if String.eqb (first_segment lookup) "field_val" then
        if negb (existsb (String.eqb last) text_lookups) then Some orm_FieldError
        else if (String.eqb last "in" || String.eqb last "range") && is_scalar_arg arg
             then Some orm_TypeError
        else None
      else if negb (has_field m (first_segment lookup)) then Some orm_FieldError
      else if (String.eqb last "in" || String.eqb last "range") && is_scalar_arg arg
           then Some orm_TypeError
      else None
  end.

End Models.

Definition reference_host : Host :=
  {| json_loads := Json.loads;
     json_loads_empty := eq_refl;
     get_field := Models.get_field;
     repr_str := Repr.repr_str;
     orm_refuses := Models.orm_refuses |}.

(** ** What a tag restriction means *)

(** The two restrictions [TagsFilter] places on a queryset. *)
Inductive restriction : Type :=
| some_tag_of (synonyms : list string)   (* filter(tags__in=synonyms) *)
| exactly_tag (key : string).            (* filter(tags__pk=key) *)

Definition restriction_call (r : restriction) : orm_call :=
  match r with
  | some_tag_of synonyms => filter_call "tags__in" (ArgTags synonyms)
  | exactly_tag key => filter_call "tags__pk" (ArgValue (PStr key))
  end.

(** An object with the tags [tags] passes the restriction. *)
Definition satisfies (tags : list string) (r : restriction) : bool :=
  match r with
  | some_tag_of synonyms => existsb (fun t => existsb (String.eqb t) synonyms) tags
  | exactly_tag key => existsb (String.eqb key) tags
  end.

(** The stored document [doc] passes every restriction of [rs]. *)
Definition passes (st : Store) (doc : string) (rs : list restriction) : bool :=
  forallb (satisfies (default [] (Document_tags st !! doc))) rs.

(** The queryset restricted by each of [rs] in turn. *)
Definition restrict (qs : QuerySet) (rs : list restriction) : QuerySet :=
  {| model := model qs; query := (query qs ++ map restriction_call rs)%list |}.

(** ** The conditions the filters reject *)

(** The entries the loop of [JSONValueFilter.filter] runs over when the
    text decodes to an object (wrapped in a list) or to a list. *)
Definition decoded_entries (v : pyval) : option (list pyval) :=
  match v with
  | PDict _ => Some [v]
  | PList l => Some l
  | _ => None
  end.

(** The entry has no ["key"] member or no ["value"] member. *)
Definition lacks_key_or_value (expr : pyval) : bool :=
  match expr with
  | PDict d => negb (dict_has d "key") || negb (dict_has d "value")
  | _ => true
  end.

(** The entry's ["lookup"] member, or the filter's default lookup. *)
Definition lookup_of (self : Filter) (expr : pyval) : pyval :=
  match expr with
  | PDict d => default (PStr (lookup_expr self)) (dict_get d "lookup")
  | _ => PStr (lookup_expr self)
  end.

(** The lookup is a name registered on the field. *)
Definition registered (valid_lookups : list string) (lookup : pyval) : Prop :=
  exists name, lookup = PStr name /\ In name valid_lookups.


(** The value is one of the user's assigned groups. *)
Definition assigned (self : Filter) (value : pyval) : Prop :=
  exists g, value = PStr g /\ In g (groups (user (request (parent self)))).

(** The restriction per key: some tag of the synonym group when the key's
    tag has one with a non-empty tag set, and otherwise the tag with exactly
    that key. *)
Definition two_case_restriction (st : Store) (key : string) : restriction :=
  match Tag_objects st !! key with
  | Some row =>
      match tag_synonym_group row with
      | Some group =>
          match synonym_group_tags st group with
          | [] => exactly_tag key
          | synonyms => some_tag_of synonyms
          end
      | None => exactly_tag key
      end
  | None => exactly_tag key
  end.

(** What the key [key] asks of an object carrying the tags [tags]: some tag
    of the synonym group when the key's tag has a group with tags, and
    otherwise the key itself. *)
Definition tag_requirement (st : Store) (tags : list string) (key : string) : Prop :=
  match Tag_objects st !! key with
  | Some row =>
      match tag_synonym_group row with
      | Some group =>
          match synonym_group_tags st group with
          | [] => In key tags
          | synonyms => exists t, In t tags /\ In t synonyms
          end
      | None => In key tags
      end
  | None => In key tags
  end.

(** ** Sample data *)

Module Sample.

Definition fs : FilterSet :=
  {| request := {| user := {| groups := ["admin"; "staff"] |} |} |}.

Definition documents : QuerySet := {| model := Document; query := [] |}.
Definition tags : QuerySet := {| model := Tag; query := [] |}.

(** Tags [red] and [crimson] are synonyms; [blue] stands alone; [grey] is
    the one tag of its synonym group. *)
Definition store : Store :=
  {| Tag_objects :=
       <["red" := {| tag_synonym_group := Some "g1" |}]>
       (<["crimson" := {| tag_synonym_group := Some "g1" |}]>
       (<["blue" := {| tag_synonym_group := None |}]>
       (<["grey" := {| tag_synonym_group := Some "g2" |}]> ∅)));
     Document_tags := <["doc1" := ["red"; "blue"]]> ∅ |}.

(** [{"key": "k", "value": "v"}] *)
Definition object_text : string :=
  "{" ++ dq ++ "key" ++ dq ++ ": " ++ dq ++ "k" ++ dq ++ ", "
      ++ dq ++ "value" ++ dq ++ ": " ++ dq ++ "v" ++ dq ++ "}".

Definition object_members : list (string * pyval) :=
  [("key", PStr "k"); ("value", PStr "v")].

(** [[{"key": "a", "value": "b", "lookup": []}]] *)
Definition list_lookup_text : string :=
  "[{" ++ dq ++ "key" ++ dq ++ ": " ++ dq ++ "a" ++ dq ++ ", "
       ++ dq ++ "value" ++ dq ++ ": " ++ dq ++ "b" ++ dq ++ ", "
       ++ dq ++ "lookup" ++ dq ++ ": []}]".

(** [[{"key": "k", "value": "v"}, {"key": 1}]] *)
Definition missing_value_text : string :=
  "[" ++ object_text ++ ", {" ++ dq ++ "key" ++ dq ++ ": 1}]".

End Sample.

(** ** Sample texts *)

Module Texts.

Definition quoted (s : string) : string := dq ++ s ++ dq.

(** [{"key": "n", "value": 1}] *)
Definition number_object : string :=
  "{" ++ quoted "key" ++ ": " ++ quoted "n" ++ ", " ++ quoted "value" ++ ": 1}".

(** [[{"key": "k", "value": "v"}, {"key": "n", "value": 1}]] *)
Definition two_objects : string :=
  "[" ++ Sample.object_text ++ ", " ++ number_object ++ "]".

(** [[{}, {"key": "k", "value": "v"}, null]] *)
Definition with_empties : string :=
  "[{}, " ++ Sample.object_text ++ ", null]".

(** [[["key", "value"]]] *)
Definition key_value_list : string :=
  "[[" ++ quoted "key" ++ ", " ++ quoted "value" ++ "]]".

(** [{"key": "k", "value": "v", "extra": 1}] *)
Definition extra_member : string :=
  "{" ++ quoted "key" ++ ": " ++ quoted "k" ++ ", " ++ quoted "value" ++ ": "
      ++ quoted "v" ++ ", " ++ quoted "extra" ++ ": 1}".

(** [{"key": "k", "value": "v", "lookup": "exact"}] *)
Definition exact_lookup : string :=
  "{" ++ quoted "key" ++ ": " ++ quoted "k" ++ ", " ++ quoted "value" ++ ": "
      ++ quoted "v" ++ ", " ++ quoted "lookup" ++ ": " ++ quoted "exact" ++ "}".

(** [[{"key": "k", "value": "v"}, {"key": "k", "value": "v", "lookup": "bogus"}]] *)
Definition bogus_lookup : string :=
  "[" ++ Sample.object_text ++ ", {" ++ quoted "key" ++ ": " ++ quoted "k" ++ ", "
      ++ quoted "value" ++ ": " ++ quoted "v" ++ ", " ++ quoted "lookup" ++ ": "
      ++ quoted "bogus" ++ "}]".

(** [{"key": "k", "value": "v", "lookup": "has_key"}] *)
Definition has_key_lookup : string :=
  "{" ++ quoted "key" ++ ": " ++ quoted "k" ++ ", " ++ quoted "value" ++ ": "
      ++ quoted "v" ++ ", " ++ quoted "lookup" ++ ": " ++ quoted "has_key" ++ "}".

(** [{"key": "n", "value": 1, "lookup": "in"}] *)
Definition in_lookup : string :=
  "{" ++ quoted "key" ++ ": " ++ quoted "n" ++ ", " ++ quoted "value" ++ ": 1, "
      ++ quoted "lookup" ++ ": " ++ quoted "in" ++ "}".

(** A queryset of documents that already has a call on it. *)
Definition filtered_documents : QuerySet :=
  {| model := Document;
     query := [filter_call "category" (ArgValue (PStr "contracts"))] |}.

End Texts.

(** ** Reading the outcome of a filter *)

(** A call that [JSONValueFilter] may make for the filter [self]: the
    annotation [field_val] over the filter's field, or a keyword lookup that
    goes through [field_val] or through the filter's field and ends in one
    of the names [valid_lookups]. *)
Definition own_call `{Host} (self : Filter) (valid_lookups : list string) (c : orm_call) : Prop :=
  match c with
  | annotate_call alias (KeyTextTransform _ field) =>
      alias = "field_val" /\ field = field_name self
  | filter_call lookup (ArgValue _) =>
      exists name, In name valid_lookups
        /\ (lookup = "field_val__" ++ name
            \/ exists k, lookup = field_name self ++ "__" ++ py_str k ++ "__" ++ name)
  | filter_call _ (ArgTags _) => False
  end.


(** The error of the first call of [calls] that the ORM refuses on the
    model [m], if it refuses one. *)
Fixpoint first_refusal `{Host} (m : Model) (calls : list orm_call) : option orm_exn :=
  match calls with
  | [] => None
  | c :: rest =>
      match orm_refuses m c with
      | Some e => Some e
      | None => first_refusal m rest
      end
  end.

(** The decoded values a [for] loop cannot run over. *)
Definition scalar (v : pyval) : bool :=
  match v with
  | PNone | PBool _ | PInt _ | PFloat _ => true
  | _ => false
  end.

(** * Properties *)

Section Properties.
Context `{Host}.
Implicit Types (self : Filter) (qs : QuerySet) (value : pyval).

(** C10. Each of the three filters, given a value that is a member of
    [EMPTY_VALUES], returns the input queryset unchanged and raises
    nothing. *)
Theorem empty_value_returns_queryset self qs value (keys : option (list string)) (st : Store) :
  in_EMPTY_VALUES value = true ->
  in_EMPTY_VALUES (csv_value keys) = true ->
  JSONValueFilter.filter self qs value = Ok qs
  /\ ActiveGroupFilter.filter self qs value = Ok qs
  /\ TagsFilter.filter self qs keys st = (st, Ok qs).
Proof.
  intros Hv Hk.
  unfold JSONValueFilter.filter, ActiveGroupFilter.filter, TagsFilter.filter.
  rewrite Hv, Hk. auto.
Qed.

Lemma assigned_iff self value :
  assigned self value <->
  existsb (py_eq_str value) (groups (user (request (parent self)))) = true.
Proof.
  unfold assigned. rewrite existsb_exists. split.
  - intros (g & -> & Hin). exists g. split; [done|]. simpl. by apply String.eqb_eq.
  - intros (g & Hin & Heq). exists g. split; [|done].
    destruct value; simpl in Heq; try discriminate.
    apply String.eqb_eq in Heq. by subst.
Qed.

(** C8. A non-empty value that is one of the user's assigned groups
    passes: the filter returns the input queryset as it is. *)
Theorem assigned_group_returns_queryset self qs value :
  in_EMPTY_VALUES value = false ->
  assigned self value ->
  ActiveGroupFilter.filter self qs value = Ok qs.
Proof.
  intros Hne Hin. apply assigned_iff in Hin.
  unfold ActiveGroupFilter.filter. by rewrite Hne, Hin.
Qed.

(** C6. A non-empty value that is not one of the user's assigned groups
    raises a [ValidationError] whose text quotes the value; and any
    failure of the filter, on any value, is this one. *)
Theorem unassigned_group_is_rejected self qs value :
  in_EMPTY_VALUES value = false ->
  ~ assigned self value ->
  ActiveGroupFilter.filter self qs value =
    Raise (ValidationError
             ("Active group '" ++ py_str value
                ++ "' is not part of user's assigned groups"))
  /\ (forall value' e,
        ActiveGroupFilter.filter self qs value' = Raise e ->
        in_EMPTY_VALUES value' = false
        /\ ~ assigned self value'
        /\ e = ValidationError
                 ("Active group '" ++ py_str value'
                    ++ "' is not part of user's assigned groups")).
Proof.
  intros Hne Hnot. split.
  - unfold ActiveGroupFilter.filter. rewrite Hne.
    destruct (existsb _ _) eqn:E; [|done].
    exfalso. apply Hnot. by apply assigned_iff.
  - intros v e. unfold ActiveGroupFilter.filter.
    destruct (in_EMPTY_VALUES v); [discriminate|].
    destruct (existsb _ _) eqn:E; simpl; [discriminate|].
    intros [= <-]. split; [done|]. split; [|done].
    intros Ha. apply assigned_iff in Ha. congruence.
Qed.

(** C4. On a field that resolves, a non-empty text that is not valid JSON
    raises the "needs to be json encoded" [ValidationError]; the failure
    comes before the loop, so no [annotate] or [filter] call is made on
    the queryset. *)
Theorem invalid_json_is_rejected self qs (s : string) :
  s <> "" ->
  json_loads s = None ->
  is_Ok (JSONValueFilter._valid_lookups self qs) = true ->
  JSONValueFilter.filter self qs (PStr s) =
    Raise (ValidationError "JSONValueFilter value needs to be json encoded.").
Proof.
  intros Hne Hbad Hcfg. unfold JSONValueFilter.filter.
  replace (in_EMPTY_VALUES (PStr s)) with false by (by destruct s).
  destruct (JSONValueFilter._valid_lookups self qs) as [vl|]; [|discriminate].
  simpl. by rewrite Hbad.
Qed.

(** C9. A text that decodes to an object [d] and a text that decodes to
    the one-element list [[d]] give the same outcome: the same queryset
    or the same error. *)
Theorem object_is_treated_as_singleton_list self qs (d : list (string * pyval)) (s1 s2 : string) :
  json_loads s1 = Some (PDict d) ->
  json_loads s2 = Some (PList [PDict d]) ->
  JSONValueFilter.filter self qs (PStr s1) = JSONValueFilter.filter self qs (PStr s2).
Proof.
  intros H1 H2.
  assert (forall s v, json_loads s = Some v -> in_EMPTY_VALUES (PStr s) = false) as Hne.
  { intros [|c s] v Hs; [|done]. rewrite json_loads_empty in Hs. discriminate. }
  unfold JSONValueFilter.filter.
  rewrite (Hne _ _ H1), (Hne _ _ H2).
  destruct (JSONValueFilter._valid_lookups self qs) as [vl|e]; [|done].
  simpl. by rewrite H1, H2.
Qed.


Lemma qs_call_model qs (c : orm_call) qs' :
  qs_call qs c = Ok qs' -> qs' = extend qs [c].
Proof.
  unfold qs_call. destruct (orm_refuses (model qs) c); [discriminate|].
  by intros [= <-].
Qed.


(** *** The loop of [TagsFilter] *)

Lemma TagsFilter_filter_key_store qs (key : string) (st : Store) :
  (TagsFilter.filter_key qs key st).1 = st.
Proof.
  unfold TagsFilter.filter_key, Tag_objects_get, tags_all, no_query,
    mbind, DB_bind, mret, DB_ret.
  destruct (Tag_objects st !! key) as [row|]; [|done].
  destruct (tag_synonym_group row); [|done].
  by destruct (synonym_group_tags st _).
Qed.

Lemma TagsFilter_filter_loop_store (keys : list string) qs (st : Store) :
  (TagsFilter.filter_loop qs keys st).1 = st.
Proof.
  revert qs. induction keys as [|key rest IH]; intros qs; [done|].
  simpl. unfold mbind, DB_bind.
  pose proof (TagsFilter_filter_key_store qs key st) as Hk.
  destruct (TagsFilter.filter_key qs key st) as [st' [qs'|e]]; simpl in Hk; subst st'.
  - apply IH.
  - done.
Qed.

Lemma restrict_nil qs : restrict qs [] = qs.
Proof. destruct qs as [m q]. unfold restrict. simpl. by rewrite app_nil_r. Qed.

Lemma restrict_restrict qs (r1 r2 : list restriction) :
  restrict (restrict qs r1) r2 = restrict qs (r1 ++ r2)%list.
Proof. unfold restrict. simpl. by rewrite map_app, app_assoc. Qed.

(** A stored tag is one of the tags of its own synonym group. *)
Lemma synonym_group_has_tag (st : Store) (key group : string) (row : TagRow) :
  Tag_objects st !! key = Some row ->
  tag_synonym_group row = Some group ->
  key ∈ synonym_group_tags st group.
Proof.
  intros Hrow Hgroup. unfold synonym_group_tags. apply list_elem_of_omap.
  exists (key, row). split; [by apply elem_of_map_to_list|].
  simpl. by rewrite bool_decide_eq_true_2.
Qed.

(** What one turn of the loop does for a key, whatever the store. *)
Lemma TagsFilter_filter_key_cases qs (key : string) (st : Store) :
  TagsFilter.filter_key qs key st =
  (st, match Tag_objects st !! key with
       | None => Raise DoesNotExist
       | Some _ => qs_call qs (restriction_call (two_case_restriction st key))
       end).
Proof.
  unfold TagsFilter.filter_key, two_case_restriction, Tag_objects_get, tags_all,
    no_query, mbind, DB_bind, mret, DB_ret.
  destruct (Tag_objects st !! key) as [row|] eqn:Hrow; [|done].
  destruct (tag_synonym_group row) as [group|] eqn:Hgroup; [|done].
  pose proof (synonym_group_has_tag st key group row Hrow Hgroup) as Hin.
  destruct (synonym_group_tags st group) as [|t ts]; [|done].
  by apply not_elem_of_nil in Hin.
Qed.

Lemma TagsFilter_filter_loop_stored (keys : list string) qs (st : Store) :
  (forall key, In key keys -> is_Some (Tag_objects st !! key)) ->
  (forall key, In key keys ->
     orm_refuses (model qs) (restriction_call (two_case_restriction st key)) = None) ->
  TagsFilter.filter_loop qs keys st =
    (st, Ok (restrict qs (map (two_case_restriction st) keys))).
Proof.
  revert qs. induction keys as [|key rest IH]; intros qs Hall Htaken.
  - simpl. by rewrite restrict_nil.
  - cbn [TagsFilter.filter_loop]. unfold mbind at 1, DB_bind.
    rewrite TagsFilter_filter_key_cases.
    destruct (Hall key) as [row ->]; [by left|].
    unfold qs_call. rewrite Htaken by (by left).
    rewrite IH.
    + cbn [map]. do 2 f_equal. unfold restrict, extend. simpl.
      by rewrite <- app_assoc.
    + intros k Hk. apply Hall. by right.
    + intros k Hk. apply Htaken. by right.
Qed.


Lemma satisfies_exactly (tags : list string) (key : string) :
  satisfies tags (exactly_tag key) = true <-> In key tags.
Proof.
  simpl. rewrite existsb_exists. split.
  - intros (t & Hin & Heq). apply String.eqb_eq in Heq. by subst.
  - intros Hin. exists key. split; [done|]. apply String.eqb_refl.
Qed.

Lemma satisfies_some (tags synonyms : list string) :
  satisfies tags (some_tag_of synonyms) = true <->
  exists t, In t tags /\ In t synonyms.
Proof.
  simpl. rewrite existsb_exists. split.
  - intros (t & Hin & Hex). apply existsb_exists in Hex as (u & Hu & Heq).
    apply String.eqb_eq in Heq. subst u. by exists t.
  - intros (t & Hin & Hsyn). exists t. split; [done|].
    apply existsb_exists. exists t. split; [done|]. apply String.eqb_refl.
Qed.

Lemma two_case_requirement (st : Store) (tags : list string) (key : string) :
  satisfies tags (two_case_restriction st key) = true <-> tag_requirement st tags key.
Proof.
  unfold two_case_restriction, tag_requirement.
  destruct (Tag_objects st !! key) as [row|]; [|apply satisfies_exactly].
  destruct (tag_synonym_group row) as [group|]; [|apply satisfies_exactly].
  destruct (synonym_group_tags st group) as [|t ts];
    [apply satisfies_exactly | apply satisfies_some].
Qed.

Lemma restrictions_conjunctive (st : Store) (tags keys : list string) :
  forallb (satisfies tags) (map (two_case_restriction st) keys) = true <->
  forall key, In key keys -> tag_requirement st tags key.
Proof.
  rewrite forallb_forall. split.
  - intros Hall key Hin. apply two_case_requirement, Hall, in_map, Hin.
  - intros Hall r Hr. apply in_map_iff in Hr as (key & <- & Hin).
    by apply two_case_requirement, Hall.
Qed.

(** C2. For a non-empty list of primary keys of stored tags, on a queryset
    whose model takes the tag lookups, [TagsFilter.filter] returns the
    input queryset restricted once per key, each restriction on top of the
    ones before: for a tag whose synonym group has a non-empty tag set, to
    objects carrying some tag of the group; otherwise, to objects carrying
    the tag with exactly that key.  An object passes all the restrictions
    exactly when it meets the requirement of every key. *)
Theorem tags_filter_restricts_per_key self qs (keys : list string) (st : Store) :
  keys <> [] ->
  (forall key, In key keys -> is_Some (Tag_objects st !! key)) ->
  (forall key, In key keys ->
     orm_refuses (model qs) (restriction_call (two_case_restriction st key)) = None) ->
  exists rs : list restriction,
    TagsFilter.filter self qs (Some keys) st = (st, Ok (restrict qs rs))
    /\ rs = map (two_case_restriction st) keys
    /\ forall tags : list string,
         forallb (satisfies tags) rs = true <->
         forall key, In key keys -> tag_requirement st tags key.
Proof.
  intros Hne Hall Htaken. exists (map (two_case_restriction st) keys).
  split; [|split; [done|]].
  - unfold TagsFilter.filter.
    replace (in_EMPTY_VALUES (csv_value (Some keys))) with false
      by (by destruct keys).
    by apply TagsFilter_filter_loop_stored.
  - intros tags. apply restrictions_conjunctive.
Qed.

(** *** The loop of [JSONValueFilter] *)

Lemma dict_has_get (d : list (string * pyval)) (k : string) :
  dict_has d k = true -> exists v, dict_get d k = Some v.
Proof.
  induction d as [|[k' v'] rest IH]; simpl; [discriminate|].
  destruct (String.eqb k' k); [by exists v' | exact IH].
Qed.

Lemma str_among_keys (s : string) (keys : list string) :
  existsb (py_eq_str (PStr s)) keys = true <-> In s keys.
Proof.
  rewrite existsb_exists. simpl. split.
  - intros (k & Hin & Heq). apply String.eqb_eq in Heq. by subst.
  - intros Hin. exists s. split; [done|]. apply String.eqb_refl.
Qed.

Lemma registered_iff (valid_lookups : list string) (lookup : pyval) :
  registered valid_lookups lookup <->
  existsb (py_eq_str lookup) valid_lookups = true.
Proof.
  unfold registered. split.
  - intros (name & -> & Hin). by apply str_among_keys.
  - intros Hex. destruct lookup as [| | | |name| |];
      try (apply existsb_exists in Hex as (k & _ & Hk); simpl in Hk; discriminate).
    exists name. split; [done|]. by apply str_among_keys.
Qed.

(** An object that is not empty and is short of ["key"] or ["value"] is
    turned down with the message about the members. *)
Lemma missing_member_is_rejected self (valid_lookups : list string) qs
    (d : list (string * pyval)) :
  d <> [] ->
  lacks_key_or_value (PDict d) = true ->
  JSONValueFilter.filter_entry self valid_lookups qs (PDict d) =
    Raise (ValidationError JSONValueFilter.msg_key_value).
Proof.
  intros Hne Hlack. unfold JSONValueFilter.filter_entry.
  replace (in_EMPTY_VALUES (PDict d)) with false by (by destruct d).
  simpl in *. destruct (dict_has d "key"), (dict_has d "value"); done.
Qed.

(** An object with both members whose lookup is hashable and not
    registered is turned down with the message that names the lookup, the
    field and the registered lookups. *)
Lemma unregistered_lookup_is_rejected self (valid_lookups : list string) qs
    (d : list (string * pyval)) :
  lacks_key_or_value (PDict d) = false ->
  hashable (lookup_of self (PDict d)) = true ->
  ~ registered valid_lookups (lookup_of self (PDict d)) ->
  JSONValueFilter.filter_entry self valid_lookups qs (PDict d) =
    Raise (ValidationError
             ("Lookup expression " ++ dq ++ py_str (lookup_of self (PDict d)) ++ dq
                ++ " not allowed for field " ++ dq ++ field_name self ++ dq
                ++ ". Valid expressions: " ++ String.concat ", " valid_lookups)).
Proof.
  intros Hboth Hhash Hnot. unfold JSONValueFilter.filter_entry.
  assert (in_EMPTY_VALUES (PDict d) = false) as ->.
  { destruct d; [discriminate Hboth | done]. }
  simpl in *. apply orb_false_iff in Hboth as [Hk Hv].
  apply negb_false_iff in Hk, Hv. rewrite Hk, Hv. simpl.
  unfold in_dict_keys. rewrite Hhash. simpl.
  destruct (existsb _ valid_lookups) eqn:E; [|done].
  exfalso. apply Hnot. by apply registered_iff.
Qed.



Lemma JSONValueFilter_filter_decoded self qs (s : string) (v : pyval)
    (valid_lookups : list string) (entries : list pyval) :
  json_loads s = Some v ->
  JSONValueFilter._valid_lookups self qs = Ok valid_lookups ->
  decoded_entries v = Some entries ->
  JSONValueFilter.filter self qs (PStr s) =
    JSONValueFilter.filter_loop self valid_lookups qs entries.
Proof.
  intros Hs Hvl Hv. unfold JSONValueFilter.filter.
  assert (in_EMPTY_VALUES (PStr s) = false) as ->.
  { destruct s; [|done]. rewrite json_loads_empty in Hs. discriminate. }
  rewrite Hvl. simpl. rewrite Hs. simpl.
  destruct v; simpl in *; try discriminate; by injection Hv as <-.
Qed.


End Properties.

(** * The properties on the sample data *)

Lemma empty_value_returns_queryset_sample :
  @JSONValueFilter.filter reference_host
     (DocumentFilterSet.meta Sample.fs) Sample.documents (PStr "") = Ok Sample.documents
  /\ @ActiveGroupFilter.filter reference_host
       (DocumentFilterSet.meta Sample.fs) Sample.documents (PStr "") = Ok Sample.documents
  /\ @TagsFilter.filter reference_host
       (DocumentFilterSet.meta Sample.fs) Sample.documents None Sample.store
     = (Sample.store, Ok Sample.documents).
Proof.
  apply (@empty_value_returns_queryset reference_host
           (DocumentFilterSet.meta Sample.fs) Sample.documents (PStr "") None Sample.store);
    reflexivity.
Defined.

Lemma assigned_group_returns_queryset_sample :
  @ActiveGroupFilter.filter reference_host
    (DocumentFilterSet.active_group Sample.fs) Sample.documents (PStr "staff")
  = Ok Sample.documents.
Proof.
  apply (@assigned_group_returns_queryset reference_host).
  - reflexivity.
  - exists "staff". split; [reflexivity | simpl; auto].
Defined.

Lemma guest_not_assigned :
  ~ assigned (DocumentFilterSet.active_group Sample.fs) (PStr "guest").
Proof.
  intros (g & Heq & Hin). injection Heq as <-.
  simpl in Hin. destruct Hin as [Hg|[Hg|[]]]; discriminate.
Defined.

Lemma unassigned_group_is_rejected_sample :
  @ActiveGroupFilter.filter reference_host
    (DocumentFilterSet.active_group Sample.fs) Sample.documents (PStr "guest")
  = Raise (ValidationError "Active group 'guest' is not part of user's assigned groups").
Proof.
  apply (@unassigned_group_is_rejected reference_host
           (DocumentFilterSet.active_group Sample.fs) Sample.documents (PStr "guest")).
  - reflexivity.
  - exact guest_not_assigned.
Defined.

Lemma invalid_json_is_rejected_sample :
  @JSONValueFilter.filter reference_host
     (TagFilterSet.with_documents_meta Sample.fs) Sample.tags (PStr "{")
  = Raise (ValidationError "JSONValueFilter value needs to be json encoded.").
Proof.
  apply (@invalid_json_is_rejected reference_host).
  - discriminate.
  - vm_compute. reflexivity.
  - vm_compute. reflexivity.
Defined.

Lemma object_is_treated_as_singleton_list_sample :
  @JSONValueFilter.filter reference_host
     (DocumentFilterSet.meta Sample.fs) Sample.documents (PStr Sample.object_text)
  = @JSONValueFilter.filter reference_host
      (DocumentFilterSet.meta Sample.fs) Sample.documents
      (PStr ("[" ++ Sample.object_text ++ "]")).
Proof.
  apply (@object_is_treated_as_singleton_list reference_host _ _ Sample.object_members).
  - vm_compute. reflexivity.
  - vm_compute. reflexivity.
Defined.

Lemma sample_keys_stored :
  forall key, In key ["red"; "grey"; "blue"] -> is_Some (Tag_objects Sample.store !! key).
Proof.
  intros key [<-|[<-|[<-|[]]]]; vm_compute; eexists; reflexivity.
Defined.

Lemma sample_restrictions_taken :
  forall key, In key ["red"; "grey"; "blue"] ->
    orm_refuses (Host := reference_host) (model Sample.documents)
      (restriction_call (two_case_restriction Sample.store key)) = None.
Proof.
  intros key [<-|[<-|[<-|[]]]]; vm_compute; reflexivity.
Defined.

Lemma tags_filter_restricts_per_key_sample :
  exists rs : list restriction,
    @TagsFilter.filter reference_host (DocumentFilterSet.tags Sample.fs) Sample.documents
      (Some ["red"; "grey"; "blue"]) Sample.store
    = (Sample.store, Ok (restrict Sample.documents rs))
    /\ rs = map (two_case_restriction Sample.store) ["red"; "grey"; "blue"]
    /\ forall tags : list string,
         forallb (satisfies tags) rs = true <->
         forall key, In key ["red"; "grey"; "blue"] ->
                     tag_requirement Sample.store tags key.
Proof.
  apply (@tags_filter_restricts_per_key reference_host).
  - discriminate.
  - exact sample_keys_stored.
  - exact sample_restrictions_taken.
Defined.

(** The restrictions placed on the sample data: the synonym group of [red],
    the group of [grey], which is [grey] alone, and [blue] itself. *)
Example sample_restrictions :
  map (two_case_restriction Sample.store) ["red"; "grey"; "blue"]
  = [some_tag_of ["crimson"; "red"]; some_tag_of ["grey"]; exactly_tag "blue"].
Proof. vm_compute. reflexivity. Qed.

(** On the sample data, the document tagged [red] and [blue] passes the
    restrictions of the keys [crimson] and [blue], through the synonym
    [red]; it would not pass a restriction to exactly [crimson]. *)
Example sample_document_passes :
  passes Sample.store "doc1" (map (two_case_restriction Sample.store) ["crimson"; "blue"]) = true
  /\ passes Sample.store "doc1" [exactly_tag "crimson"] = false.
Proof. split; vm_compute; reflexivity. Qed.

(** Every [JSONValueFilter] registered in the filter sets names a field
    that resolves on the model of its filter set. *)
Example registered_fields_resolve :
  Forall (fun '(f, m) =>
            @JSONValueFilter._valid_lookups reference_host (f Sample.fs)
              {| model := m; query := [] |} = Ok Models.json_lookups)
    [(CategoryFilterSet.meta, CategoryFilterSet.Meta_model);
     (DocumentFilterSet.meta, DocumentFilterSet.Meta_model);
     (FileFilterSet.meta, FileFilterSet.Meta_model);
     (TagFilterSet.meta, TagFilterSet.Meta_model);
     (TagFilterSet.with_documents_meta, TagFilterSet.Meta_model)].
Proof. repeat constructor. Qed.

(** On the sample host, calls the ORM refuses end the filter with the
    ORM's error: a lookup that the text of [field_val] does not have, a
    lookup [in] over a number, and a tag lookup on a model without tags. *)
Example sample_refused_calls :
  @JSONValueFilter.filter reference_host
     (DocumentFilterSet.meta Sample.fs) Sample.documents (PStr Texts.has_key_lookup)
  = Raise FieldError
  /\ @JSONValueFilter.filter reference_host
       (DocumentFilterSet.meta Sample.fs) Sample.documents (PStr Texts.in_lookup)
     = Raise TypeError
  /\ (@TagsFilter.filter reference_host (DocumentFilterSet.tags Sample.fs)
        {| model := File; query := [] |} (Some ["red"]) Sample.store).2
     = Raise FieldError.
Proof. repeat split; vm_compute; reflexivity. Qed.

(** On the sample host, the reverse side of a relation has no lookups to
    give: naming it as the field raises [AttributeError]. *)
Example sample_reverse_relation :
  @JSONValueFilter._valid_lookups reference_host
     (JSONValueFilter_new "documents" Sample.fs) Sample.tags
  = Raise AttributeError.
Proof. vm_compute. reflexivity. Qed.

(** C5. The entry [1] of the text [[1]] is not empty and has no ["key"]
    member, and the filter raises [TypeError] on it, where the claim has a
    [ValidationError]. *)
Theorem number_entry_raises_TypeError :
  json_loads (Host := reference_host) "[1]" = Some (PList [PInt 1])
  /\ in_EMPTY_VALUES (PInt 1) = false
  /\ lacks_key_or_value (PInt 1) = true
  /\ @JSONValueFilter.filter reference_host
       (DocumentFilterSet.meta Sample.fs) Sample.documents (PStr "[1]")
     = Raise TypeError.
Proof. repeat split; vm_compute; reflexivity. Qed.

(** C3. The entry of the text
    [[{"key": "a", "value": "b", "lookup": []}]] has both members and a
    lookup that is not registered on the field, and the filter raises
    [TypeError] on it, where the claim has a [ValidationError]. *)
Theorem list_lookup_raises_TypeError :
  json_loads (Host := reference_host) Sample.list_lookup_text
  = Some (PList [PDict [("key", PStr "a"); ("value", PStr "b"); ("lookup", PList [])]])
  /\ @JSONValueFilter._valid_lookups reference_host
       (DocumentFilterSet.meta Sample.fs) Sample.documents = Ok Models.json_lookups
  /\ ~ registered Models.json_lookups (PList [])
  /\ @JSONValueFilter.filter reference_host
       (DocumentFilterSet.meta Sample.fs) Sample.documents (PStr Sample.list_lookup_text)
     = Raise TypeError.
Proof.
  split; [vm_compute; reflexivity|]. split; [vm_compute; reflexivity|].
  split; [|vm_compute; reflexivity].
  intros (name & Hname & _). discriminate.
Qed.



(** * Further properties of the filters *)

Section Splitting.

Lemma split_dunder_from_step (c : ascii) (rest acc : string) :
  split_dunder_from (String c rest) acc =
  if Ascii.eqb c "_" then
    match rest with
    | String c2 rest2 =>
        if Ascii.eqb c2 "_" then acc :: split_dunder_from rest2 ""
        else split_dunder_from rest (acc ++ String c "")
    | EmptyString => split_dunder_from rest (acc ++ String c "")
    end
  else split_dunder_from rest (acc ++ String c "").
Proof.
  destruct c as [[] [] [] [] [] [] [] []]; try reflexivity.
  destruct rest as [|c2 rest2]; [reflexivity|].
  destruct c2 as [[] [] [] [] [] [] [] []]; reflexivity.
Qed.

Lemma str_app_cons (x : ascii) (a b : string) : String x a ++ b = String x (a ++ b).
Proof. reflexivity. Qed.

Lemma str_app_nil_l (a : string) : "" ++ a = a.
Proof. reflexivity. Qed.

Lemma str_app_assoc (a b c : string) : (a ++ b) ++ c = a ++ (b ++ c).
Proof.
  induction a as [|x a IH]; [done|].
  by rewrite !str_app_cons, IH.
Qed.

Lemma str_app_nil_r (a : string) : a ++ "" = a.
Proof.
  induction a as [|x a IH]; [done|].
  by rewrite str_app_cons, IH.
Qed.

Lemma prefix_dunder (c : ascii) (rest : string) :
  String.prefix "__" (String c rest) =
  Ascii.eqb c "_" &&
  match rest with
  | String c2 _ => Ascii.eqb c2 "_"
  | EmptyString => false
  end.
Proof.
  destruct (Ascii.eqb_spec c "_") as [->|Hc].
  - destruct rest as [|c2 rest2]; [reflexivity|].
    destruct (Ascii.eqb_spec c2 "_") as [->|Hc2].
    + by destruct rest2.
    + cbn [String.prefix andb].
      destruct (ascii_dec "_" "_"); [|done].
      destruct (ascii_dec "_" c2); [congruence | done].
  - cbn [String.prefix andb]. destruct (ascii_dec "_" c); [congruence | done].
Qed.

(** The segments are never none, and joined by ["__"] they give the text
    back. *)
Lemma split_dunder_from_join (s : string) :
  forall acc, exists x l,
    split_dunder_from s acc = x :: l
    /\ String.concat "__" (x :: l) = acc ++ s.
Proof.
  assert (forall s, (forall acc, exists x l,
             split_dunder_from s acc = x :: l
             /\ String.concat "__" (x :: l) = acc ++ s)
          /\ (forall c acc, exists x l,
             split_dunder_from (String c s) acc = x :: l
             /\ String.concat "__" (x :: l) = acc ++ String c s)) as Hboth.
  { clear s. induction s as [|c2 s [IH0 IH1]].
    - split.
      + intros acc. exists acc, []. split; [done|].
        by rewrite str_app_nil_r.
      + intros c acc. exists (acc ++ String c ""), [].
        rewrite split_dunder_from_step. by destruct (Ascii.eqb c "_").
    - split; [exact (IH1 c2)|].
      intros c acc. rewrite split_dunder_from_step.
      destruct (IH1 c2 (acc ++ String c "")) as (x & l & Hx & Hjoin).
      assert ((acc ++ String c "") ++ String c2 s = acc ++ String c (String c2 s)) as Hassoc
        by (by rewrite str_app_assoc).
      destruct (Ascii.eqb_spec c "_") as [->|Hc];
        [destruct (Ascii.eqb_spec c2 "_") as [->|Hc2]|].
      + destruct (IH0 "") as (y & k & Hy & Hjoin0).
        exists acc, (y :: k). rewrite Hy. split; [done|].
        change (String.concat "__" (acc :: y :: k))
          with (acc ++ "__" ++ String.concat "__" (y :: k)).
        by rewrite Hjoin0.
      + exists x, l. by rewrite Hx, Hjoin, Hassoc.
      + exists x, l. by rewrite Hx, Hjoin, Hassoc. }
  apply Hboth.
Qed.

(** A text without ["__"] is one segment. *)
Lemma split_dunder_from_plain (s : string) :
  forall acc, str_contains "__" s = false -> split_dunder_from s acc = [acc ++ s].
Proof.
  induction s as [|c s IH]; intros acc Hs.
  - simpl. by rewrite str_app_nil_r.
  - cbn [str_contains] in Hs. apply orb_false_iff in Hs as [Hp Hs].
    rewrite prefix_dunder in Hp. rewrite split_dunder_from_step.
    assert (split_dunder_from s (acc ++ String c "") = [acc ++ String c s]) as Hrest.
    { rewrite IH by done. by rewrite str_app_assoc. }
    destruct (Ascii.eqb c "_"); [|done].
    destruct s as [|c2 s2]; [done|].
    simpl in Hp. by rewrite Hp.
Qed.

(** A relation name and a field name joined by ["__"] come apart again,
    when the relation name has no ["__"] and does not end in ["_"]. *)
Lemma split_dunder_from_related (rel name : string) :
  forall acc,
    str_contains "__" (rel ++ "_") = false ->
    split_dunder_from (rel ++ "__" ++ name) acc
    = (acc ++ rel) :: split_dunder_from name "".
Proof.
  induction rel as [|c rel IH]; intros acc Hrel.
  - simpl. by rewrite str_app_nil_r.
  - change (String c rel ++ "__" ++ name) with (String c (rel ++ "__" ++ name)).
    change (String c rel ++ "_") with (String c (rel ++ "_")) in Hrel.
    cbn [str_contains] in Hrel. apply orb_false_iff in Hrel as [Hp Hrel].
    rewrite prefix_dunder in Hp. rewrite split_dunder_from_step.
    assert (split_dunder_from (rel ++ "__" ++ name) (acc ++ String c "")
            = (acc ++ String c rel) :: split_dunder_from name "") as Hrest.
    { rewrite IH by done. by rewrite str_app_assoc. }
    destruct (Ascii.eqb c "_"); [|done].
    destruct rel as [|c2 rel2]; [discriminate Hp|].
    rewrite (str_app_cons c2 rel2 "_") in Hp. simpl in Hp.
    rewrite (str_app_cons c2 rel2) in *. by rewrite Hp.
Qed.

End Splitting.

Section Lookups.
Context `{Host}.
Implicit Types (self : Filter) (qs : QuerySet).

(** X1. The segments [_valid_lookups] splits a field name into are never
    none, so [pop] always finds the last one; they are the traversals
    followed by the actual field, and joined by ["__"] they give the field
    name back. *)
Theorem field_name_segments (s : string) :
  split_dunder s <> []
  /\ split_dunder s
     = (List.removelast (split_dunder s) ++ [List.last (split_dunder s) ""])%list
  /\ String.concat "__" (split_dunder s) = s.
Proof.
  unfold split_dunder.
  destruct (split_dunder_from_join s "") as (x & l & Hsplit & Hjoin).
  rewrite Hsplit. split; [done|]. split; [|exact Hjoin].
  by apply app_removelast_last.
Qed.

(** X2. For a field name without ["__"], [_valid_lookups] gives the lookups
    of that field of the queryset's model.  It raises [FieldDoesNotExist]
    when the model has no such field, and [AttributeError] when what the
    model has under that name has no [get_lookups], as the reverse side of
    a relation. *)
Theorem valid_lookups_plain_field self qs :
  str_contains "__" (field_name self) = false ->
  JSONValueFilter._valid_lookups self qs =
    match get_field (model qs) (field_name self) with
    | None => Raise FieldDoesNotExist
    | Some f =>
        match get_lookups f with
        | None => Raise AttributeError
        | Some lookups => Ok lookups
        end
    end.
Proof.
  intros Hplain. unfold JSONValueFilter._valid_lookups, split_dunder.
  rewrite (split_dunder_from_plain _ "" Hplain), str_app_nil_l. simpl.
  by destruct (get_field (model qs) (field_name self)).
Qed.

(** X3. For a field name [rel__name], [_valid_lookups] goes through the
    relation [rel] of the queryset's model and gives the lookups of [name]
    on the related model.  It raises [FieldDoesNotExist] when either field
    is missing, and [AttributeError] when [rel] is not a relation or when
    what the related model has under [name] has no [get_lookups]. *)
Theorem valid_lookups_related_field self qs (rel name : string) :
  field_name self = rel ++ "__" ++ name ->
  str_contains "__" (rel ++ "_") = false ->
  str_contains "__" name = false ->
  JSONValueFilter._valid_lookups self qs =
    match get_field (model qs) rel with
    | None => Raise FieldDoesNotExist
    | Some r =>
        match related_model r with
        | None => Raise AttributeError
        | Some m =>
            match get_field m name with
            | None => Raise FieldDoesNotExist
            | Some f =>
                match get_lookups f with
                | None => Raise AttributeError
                | Some lookups => Ok lookups
                end
            end
        end
    end.
Proof.
  intros Hname Hrel Hplain. unfold JSONValueFilter._valid_lookups, split_dunder.
  rewrite Hname, (split_dunder_from_related rel name "" Hrel), str_app_nil_l.
  rewrite (split_dunder_from_plain _ "" Hplain), str_app_nil_l. simpl.
  destruct (get_field (model qs) rel) as [r|]; [|done]. simpl.
  destruct (related_model r) as [m|]; [|done]. simpl.
  by destruct (get_field m name).
Qed.

End Lookups.

Section JSONFiltering.
Context `{Host}.
Implicit Types (self : Filter) (qs : QuerySet) (value : pyval).

Lemma extend_nil qs : extend qs [] = qs.
Proof. destruct qs as [m q]. unfold extend. simpl. by rewrite app_nil_r. Qed.

Lemma extend_extend qs (c1 c2 : list orm_call) :
  extend (extend qs c1) c2 = extend qs (c1 ++ c2)%list.
Proof. unfold extend. simpl. by rewrite app_assoc. Qed.

Lemma allowed_is_registered (lookup : pyval) (valid_lookups : list string) :
  in_dict_keys lookup valid_lookups = Ok true ->
  exists name, lookup = PStr name /\ In name valid_lookups.
Proof.
  unfold in_dict_keys. destruct (hashable lookup); [|discriminate].
  intros [= Hex]. by apply registered_iff.
Qed.

Lemma qs_call_uniform qs qs2 (c : orm_call) :
  model qs2 = model qs ->
  qs_call qs2 c =
  match qs_call qs c with
  | Ok _ => Ok (extend qs2 [c])
  | Raise e => Raise e
  end.
Proof.
  intros Hm. unfold qs_call. rewrite Hm.
  by destruct (orm_refuses (model qs) c).
Qed.

(** One turn of the loop depends on the queryset only through its model and
    only by adding calls to it: the calls, or the error, are the same for
    every queryset of that model. *)
Lemma filter_entry_outcome self (valid_lookups : list string) qs (expr : pyval) :
  match JSONValueFilter.filter_entry self valid_lookups qs expr with
  | Ok qs' =>
      exists calls,
        qs' = extend qs calls
        /\ Forall (own_call self valid_lookups) calls
        /\ forall qs2, model qs2 = model qs ->
             JSONValueFilter.filter_entry self valid_lookups qs2 expr
             = Ok (extend qs2 calls)
  | Raise e =>
      forall qs2, model qs2 = model qs ->
        JSONValueFilter.filter_entry self valid_lookups qs2 expr = Raise e
  end.
Proof.
  unfold JSONValueFilter.filter_entry.
  destruct (in_EMPTY_VALUES expr).
  { exists []. rewrite extend_nil. split; [done|]. split; [constructor|].
    intros qs2 _. by rewrite extend_nil. }
  destruct (py_contains "key" expr) as [hk|e]; simpl; [|done].
  destruct (py_contains "value" expr) as [hv|e]; simpl; [|done].
  destruct (negb (hk && hv)); [done|].
  destruct (py_get expr "lookup" _) as [l|e]; simpl; [|done].
  destruct (in_dict_keys l valid_lookups) as [allowed|e] eqn:Hallowed; simpl; [|done].
  destruct allowed; simpl; [|done].
  destruct (allowed_is_registered _ _ Hallowed) as (name & -> & Hname).
  destruct (py_getitem expr "value") as [v|e]; simpl; [|done].
  destruct (is_str v); destruct (py_getitem expr "key") as [k|e]; simpl; try done.
  - unfold qs_annotate, qs_filter.
    set (c1 := annotate_call "field_val" (KeyTextTransform k (field_name self))).
    set (c2 := filter_call ("field_val__" ++ name) (ArgValue v)).
    destruct (qs_call qs c1) as [qs1|e] eqn:H1; simpl.
    + apply qs_call_model in H1 as Hqs1. subst qs1.
      destruct (qs_call (extend qs [c1]) c2) as [qs'|e] eqn:H2.
      * apply qs_call_model in H2 as Hqs'. subst qs'.
        exists [c1; c2]. split; [by rewrite extend_extend|]. split.
        -- repeat constructor. exists name. split; [done | by left].
        -- intros qs2 Hm. rewrite (qs_call_uniform qs qs2 c1 Hm), H1. simpl.
           rewrite (qs_call_uniform (extend qs [c1]) (extend qs2 [c1]) c2 Hm), H2.
           by rewrite extend_extend.
      * intros qs2 Hm. rewrite (qs_call_uniform qs qs2 c1 Hm), H1. simpl.
        by rewrite (qs_call_uniform (extend qs [c1]) (extend qs2 [c1]) c2 Hm), H2.
    + intros qs2 Hm. by rewrite (qs_call_uniform qs qs2 c1 Hm), H1.
  - unfold qs_filter.
    set (c := filter_call (field_name self ++ "__" ++ py_str k ++ "__" ++ name) (ArgValue v)).
    destruct (qs_call qs c) as [qs'|e] eqn:Hc.
    + apply qs_call_model in Hc as Hqs'. subst qs'.
      exists [c]. split; [done|]. split.
      * repeat constructor. exists name. split; [done|]. right. by exists k.
      * intros qs2 Hm. by rewrite (qs_call_uniform qs qs2 c Hm), Hc.
    + intros qs2 Hm. by rewrite (qs_call_uniform qs qs2 c Hm), Hc.
Qed.

Lemma filter_loop_outcome self (valid_lookups : list string) (entries : list pyval) qs :
  match JSONValueFilter.filter_loop self valid_lookups qs entries with
  | Ok qs' =>
      exists calls,
        qs' = extend qs calls
        /\ Forall (own_call self valid_lookups) calls
        /\ forall qs2, model qs2 = model qs ->
             JSONValueFilter.filter_loop self valid_lookups qs2 entries
             = Ok (extend qs2 calls)
  | Raise e =>
      forall qs2, model qs2 = model qs ->
        JSONValueFilter.filter_loop self valid_lookups qs2 entries = Raise e
  end.
Proof.
  revert qs. induction entries as [|expr rest IH]; intros qs.
  - exists []. rewrite extend_nil. split; [done|]. split; [constructor|].
    intros qs2 _. simpl. by rewrite extend_nil.
  - simpl. pose proof (filter_entry_outcome self valid_lookups qs expr) as He.
    destruct (JSONValueFilter.filter_entry self valid_lookups qs expr) as [qs1|e]; simpl.
    + destruct He as (c1 & -> & Hown1 & Huni1).
      specialize (IH (extend qs c1)).
      destruct (JSONValueFilter.filter_loop self valid_lookups (extend qs c1) rest)
        as [qs'|e].
      * destruct IH as (c2 & -> & Hown2 & Huni2).
        exists (c1 ++ c2)%list. rewrite extend_extend. split; [done|].
        split; [by apply Forall_app|].
        intros qs2 Hm. rewrite (Huni1 qs2 Hm). simpl.
        by rewrite (Huni2 (extend qs2 c1) Hm), extend_extend.
      * intros qs2 Hm. rewrite (Huni1 qs2 Hm). simpl. by apply IH.
    + intros qs2 Hm. by rewrite He.
Qed.

Lemma valid_lookups_model self qs qs2 :
  model qs2 = model qs ->
  JSONValueFilter._valid_lookups self qs2 = JSONValueFilter._valid_lookups self qs.
Proof. intros Hm. unfold JSONValueFilter._valid_lookups. by rewrite Hm. Qed.

(** X4. When [JSONValueFilter.filter] returns, its queryset is the input
    queryset with calls added after the ones it had: the model and the
    earlier calls are as they were.  Every call added is the [field_val]
    annotation over the filter's own field or a lookup through [field_val]
    or that field, ending in a lookup registered on the field. *)
Theorem json_filter_only_adds_own_calls self qs value qs' :
  JSONValueFilter.filter self qs value = Ok qs' ->
  exists calls,
    qs' = extend qs calls
    /\ forall valid_lookups,
         JSONValueFilter._valid_lookups self qs = Ok valid_lookups ->
         Forall (own_call self valid_lookups) calls.
Proof.
  unfold JSONValueFilter.filter.
  destruct (in_EMPTY_VALUES value).
  { intros [= <-]. exists []. by rewrite extend_nil. }
  destruct (JSONValueFilter._valid_lookups self qs) as [vl|e]; simpl; [|discriminate].
  destruct (JSONValueFilter.loads value) as [v|e]; simpl; [|discriminate].
  destruct (py_iter _) as [entries|e]; simpl; [|discriminate].
  pose proof (filter_loop_outcome self vl entries qs) as Hloop.
  destruct (JSONValueFilter.filter_loop self vl qs entries) as [qs1|e]; [|discriminate].
  intros [= <-]. destruct Hloop as (calls & -> & Hown & _).
  exists calls. split; [done|]. by intros vl' [= <-].
Qed.

(** X5. The outcome of [JSONValueFilter.filter] depends on the input
    queryset only through its model: on two querysets of the same model it
    raises the same error, or adds the same calls to each. *)
Theorem json_filter_outcome_is_uniform self qs qs2 value :
  model qs2 = model qs ->
  match JSONValueFilter.filter self qs value with
  | Ok qs' =>
      exists calls,
        qs' = extend qs calls
        /\ JSONValueFilter.filter self qs2 value = Ok (extend qs2 calls)
  | Raise e => JSONValueFilter.filter self qs2 value = Raise e
  end.
Proof.
  intros Hm. unfold JSONValueFilter.filter.
  rewrite (valid_lookups_model self qs qs2 Hm).
  destruct (in_EMPTY_VALUES value).
  { exists []. by rewrite !extend_nil. }
  destruct (JSONValueFilter._valid_lookups self qs) as [vl|e]; simpl; [|done].
  destruct (JSONValueFilter.loads value) as [v|e]; simpl; [|done].
  destruct (py_iter _) as [entries|e]; simpl; [|done].
  pose proof (filter_loop_outcome self vl entries qs) as Hloop.
  destruct (JSONValueFilter.filter_loop self vl qs entries) as [qs1|e].
  - destruct Hloop as (calls & -> & _ & Huni). exists calls. by rewrite Huni.
  - by apply Hloop.
Qed.

Lemma filter_loop_app self (valid_lookups : list string) (l1 l2 : list pyval) qs :
  JSONValueFilter.filter_loop self valid_lookups qs (l1 ++ l2)%list =
  (qs' ← JSONValueFilter.filter_loop self valid_lookups qs l1;
   JSONValueFilter.filter_loop self valid_lookups qs' l2).
Proof.
  revert qs. induction l1 as [|expr rest IH]; intros qs; [done|].
  simpl. destruct (JSONValueFilter.filter_entry self valid_lookups qs expr); simpl; [|done].
  apply IH.
Qed.

Lemma filter_loop_model self (valid_lookups : list string) (entries : list pyval) qs qs' :
  JSONValueFilter.filter_loop self valid_lookups qs entries = Ok qs' ->
  model qs' = model qs.
Proof.
  intros Hloop. pose proof (filter_loop_outcome self valid_lookups entries qs) as Hout.
  rewrite Hloop in Hout. by destruct Hout as (calls & -> & _).
Qed.

(** X6. Filtering by a list of entries is filtering by a first part of the
    list and then, on the queryset that gives, by the rest: the text of the
    whole list has the outcome of the texts of the two parts in turn. *)
Theorem json_filter_of_concatenation self qs (s s1 s2 : string) (l1 l2 : list pyval) :
  json_loads s1 = Some (PList l1) ->
  json_loads s2 = Some (PList l2) ->
  json_loads s = Some (PList (l1 ++ l2)%list) ->
  JSONValueFilter.filter self qs (PStr s) =
  (qs' ← JSONValueFilter.filter self qs (PStr s1);
   JSONValueFilter.filter self qs' (PStr s2)).
Proof.
  intros H1 H2 H12.
  destruct (JSONValueFilter._valid_lookups self qs) as [vl|e] eqn:Hvl.
  - rewrite (JSONValueFilter_filter_decoded self qs s _ vl _ H12 Hvl eq_refl).
    rewrite (JSONValueFilter_filter_decoded self qs s1 _ vl _ H1 Hvl eq_refl).
    rewrite filter_loop_app.
    destruct (JSONValueFilter.filter_loop self vl qs l1) as [qs'|e] eqn:Hloop; [|done].
    simpl. symmetry. apply (JSONValueFilter_filter_decoded self qs' s2 _ vl _ H2); [|done].
    rewrite <- Hvl. apply valid_lookups_model. by apply filter_loop_model in Hloop.
  - assert (forall t v, json_loads t = Some v ->
                        JSONValueFilter.filter self qs (PStr t) = Raise e) as Hfail.
    { intros t v Ht. unfold JSONValueFilter.filter.
      assert (in_EMPTY_VALUES (PStr t) = false) as ->.
      { destruct t; [|done]. rewrite json_loads_empty in Ht. discriminate. }
      by rewrite Hvl. }
    by rewrite (Hfail _ _ H12), (Hfail _ _ H1).
Qed.

Lemma filter_loop_skips_empty self (valid_lookups : list string) (entries : list pyval) qs :
  JSONValueFilter.filter_loop self valid_lookups qs entries =
  JSONValueFilter.filter_loop self valid_lookups qs
    (List.filter (fun expr => negb (in_EMPTY_VALUES expr)) entries).
Proof.
  revert qs. induction entries as [|expr rest IH]; intros qs; [done|].
  cbn [List.filter]. destruct (in_EMPTY_VALUES expr) eqn:Hempty; cbn [negb].
  - cbn [JSONValueFilter.filter_loop]. unfold JSONValueFilter.filter_entry.
    rewrite Hempty. simpl. apply IH.
  - cbn [JSONValueFilter.filter_loop].
    destruct (JSONValueFilter.filter_entry self valid_lookups qs expr); simpl; [|done].
    apply IH.
Qed.

(** X7. Empty entries of the list ([{}], [null], [[]], the empty string)
    are passed over: the text of a list has the outcome of the text of the
    list without them. *)
Theorem json_filter_skips_empty_entries self qs (s s' : string) (l : list pyval) :
  json_loads s = Some (PList l) ->
  json_loads s' = Some (PList (List.filter (fun expr => negb (in_EMPTY_VALUES expr)) l)) ->
  JSONValueFilter.filter self qs (PStr s) = JSONValueFilter.filter self qs (PStr s').
Proof.
  intros Hs Hs'.
  assert (forall t v, json_loads t = Some v -> in_EMPTY_VALUES (PStr t) = false) as Hne.
  { intros [|c t] v Ht; [|done]. rewrite json_loads_empty in Ht. discriminate. }
  unfold JSONValueFilter.filter. rewrite (Hne _ _ Hs), (Hne _ _ Hs').
  destruct (JSONValueFilter._valid_lookups self qs) as [vl|e]; [|done].
  simpl. rewrite Hs, Hs'. simpl. apply filter_loop_skips_empty.
Qed.

(** X8. A text that decodes to [null], a boolean or a number, on a field
    that resolves, raises [TypeError]: the loop cannot run over it. *)
Theorem json_filter_scalar_raises_TypeError self qs (s : string) (v : pyval) :
  json_loads s = Some v ->
  scalar v = true ->
  is_Ok (JSONValueFilter._valid_lookups self qs) = true ->
  JSONValueFilter.filter self qs (PStr s) = Raise TypeError.
Proof.
  intros Hs Hv Hvl. unfold JSONValueFilter.filter.
  assert (in_EMPTY_VALUES (PStr s) = false) as ->.
  { destruct s; [|done]. rewrite json_loads_empty in Hs. discriminate. }
  destruct (JSONValueFilter._valid_lookups self qs) as [vl|e]; [|discriminate].
  simpl. rewrite Hs. simpl. by destruct v.
Qed.

Lemma no_key_in_char (c : ascii) : str_contains "key" (String c "") = false.
Proof.
  cbn [str_contains String.prefix].
  by destruct (ascii_dec "k" c).
Qed.

(** X9. A text that decodes to a string, on a field that resolves, is run
    over character by character: the empty string leaves the queryset as it
    is, and any other string is turned down with the message about the
    members, since no single character holds ["key"]. *)
Theorem json_filter_string_is_rejected self qs (s t : string) :
  json_loads s = Some (PStr t) ->
  is_Ok (JSONValueFilter._valid_lookups self qs) = true ->
  JSONValueFilter.filter self qs (PStr s) =
    match t with
    | EmptyString => Ok qs
    | String _ _ => Raise (ValidationError JSONValueFilter.msg_key_value)
    end.
Proof.
  intros Hs Hvl. unfold JSONValueFilter.filter.
  assert (in_EMPTY_VALUES (PStr s) = false) as ->.
  { destruct s; [|done]. rewrite json_loads_empty in Hs. discriminate. }
  destruct (JSONValueFilter._valid_lookups self qs) as [vl|e]; [|discriminate].
  simpl. rewrite Hs. simpl. destruct t as [|c t]; [done|].
  cbn [chars list_ascii_of_string map mbind result_bind JSONValueFilter.filter_loop].
  unfold JSONValueFilter.filter_entry.
  cbn [in_EMPTY_VALUES py_contains]. rewrite no_key_in_char.
  unfold mbind, result_bind. by cbn [andb negb].
Qed.

Lemma existsb_eq_str (s : string) (l : list pyval) :
  In (PStr s) l -> existsb (fun x => py_eq_str x s) l = true.
Proof.
  intros Hin. apply existsb_exists. exists (PStr s). split; [done|].
  apply String.eqb_refl.
Qed.

(** X10. An entry that is a list holding the strings ["key"] and ["value"]
    passes the test for the two members and then raises [AttributeError]:
    a list has no [get]. *)
Theorem json_filter_list_entry_raises_AttributeError self qs (s : string)
    (l rest : list pyval) :
  json_loads s = Some (PList (PList l :: rest)) ->
  In (PStr "key") l ->
  In (PStr "value") l ->
  is_Ok (JSONValueFilter._valid_lookups self qs) = true ->
  JSONValueFilter.filter self qs (PStr s) = Raise AttributeError.
Proof.
  intros Hs Hk Hv Hvl.
  destruct (JSONValueFilter._valid_lookups self qs) as [vl|e] eqn:Hcfg; [|discriminate].
  rewrite (JSONValueFilter_filter_decoded self qs s _ vl _ Hs Hcfg eq_refl).
  cbn [JSONValueFilter.filter_loop]. unfold JSONValueFilter.filter_entry.
  assert (in_EMPTY_VALUES (PList l) = false) as -> by (by destruct l).
  cbn [py_contains]. rewrite (existsb_eq_str _ _ Hk), (existsb_eq_str _ _ Hv).
  done.
Qed.

Lemma dict_has_as_get (d : list (string * pyval)) (k : string) :
  dict_has d k = match dict_get d k with Some _ => true | None => false end.
Proof.
  induction d as [|[k' v'] rest IH]; [done|].
  simpl. by destruct (String.eqb k' k).
Qed.

Lemma dict_get_app (d d' : list (string * pyval)) (k : string) :
  dict_get (d ++ d')%list k =
  match dict_get d k with
  | Some v => Some v
  | None => dict_get d' k
  end.
Proof.
  induction d as [|[k' v'] rest IH]; [done|].
  simpl. by destruct (String.eqb k' k).
Qed.

Lemma filter_entry_members self (valid_lookups : list string) qs
    (d1 d2 : list (string * pyval)) :
  d1 <> [] -> d2 <> [] ->
  dict_get d1 "key" = dict_get d2 "key" ->
  dict_get d1 "value" = dict_get d2 "value" ->
  lookup_of self (PDict d1) = lookup_of self (PDict d2) ->
  JSONValueFilter.filter_entry self valid_lookups qs (PDict d1) =
  JSONValueFilter.filter_entry self valid_lookups qs (PDict d2).
Proof.
  intros Hne1 Hne2 Hk Hv Hl. unfold JSONValueFilter.filter_entry.
  assert (in_EMPTY_VALUES (PDict d1) = false) as -> by (by destruct d1).
  assert (in_EMPTY_VALUES (PDict d2) = false) as -> by (by destruct d2).
  cbn [py_contains py_get py_getitem]. cbn [lookup_of] in Hl.
  by rewrite !dict_has_as_get, Hk, Hv, Hl.
Qed.

(** X11. Of an object entry only the members ["key"], ["value"] and
    ["lookup"] count: two non-empty objects that agree on these three have
    the same outcome, whatever else they hold. *)
Theorem json_filter_reads_three_members self qs (s1 s2 : string)
    (d1 d2 : list (string * pyval)) :
  json_loads s1 = Some (PDict d1) ->
  json_loads s2 = Some (PDict d2) ->
  d1 <> [] -> d2 <> [] ->
  dict_get d1 "key" = dict_get d2 "key" ->
  dict_get d1 "value" = dict_get d2 "value" ->
  dict_get d1 "lookup" = dict_get d2 "lookup" ->
  JSONValueFilter.filter self qs (PStr s1) = JSONValueFilter.filter self qs (PStr s2).
Proof.
  intros H1 H2 Hne1 Hne2 Hk Hv Hl.
  assert (forall t v, json_loads t = Some v -> in_EMPTY_VALUES (PStr t) = false) as Hne.
  { intros [|c t] v Ht; [|done]. rewrite json_loads_empty in Ht. discriminate. }
  unfold JSONValueFilter.filter. rewrite (Hne _ _ H1), (Hne _ _ H2).
  destruct (JSONValueFilter._valid_lookups self qs) as [vl|e]; [|done].
  simpl. rewrite H1, H2. simpl.
  rewrite (filter_entry_members self vl qs d1 d2); try done.
  simpl. by rewrite Hl.
Qed.

(** X12. Leaving ["lookup"] out of a non-empty object is the same as giving
    the filter's own [lookup_expr] for it. *)
Theorem json_filter_default_lookup self qs (s1 s2 : string) (d : list (string * pyval)) :
  json_loads s1 = Some (PDict d) ->
  json_loads s2 = Some (PDict (d ++ [("lookup", PStr (lookup_expr self))])%list) ->
  d <> [] ->
  dict_get d "lookup" = None ->
  JSONValueFilter.filter self qs (PStr s1) = JSONValueFilter.filter self qs (PStr s2).
Proof.
  intros H1 H2 Hne Hnone.
  assert (forall t v, json_loads t = Some v -> in_EMPTY_VALUES (PStr t) = false) as Hnempty.
  { intros [|c t] v Ht; [|done]. rewrite json_loads_empty in Ht. discriminate. }
  unfold JSONValueFilter.filter. rewrite (Hnempty _ _ H1), (Hnempty _ _ H2).
  destruct (JSONValueFilter._valid_lookups self qs) as [vl|e]; [|done].
  simpl. rewrite H1, H2. simpl.
  rewrite (filter_entry_members self vl qs d (d ++ [("lookup", PStr (lookup_expr self))])%list);
    try done.
  - by destruct d.
  - rewrite dict_get_app. by destruct (dict_get d "key").
  - rewrite dict_get_app. by destruct (dict_get d "value").
  - simpl. rewrite dict_get_app, Hnone. done.
Qed.

(** X13. An object with a key, a value and a registered lookup, on a field
    that resolves, makes its calls on the queryset: for a string value, the
    annotation [field_val] of the key's text and then the lookup
    [field_val__<lookup>]; for any other value, the one lookup
    [<field_name>__<key>__<lookup>].  The filter returns the queryset with
    these calls when the ORM takes them, and raises the error of the first
    one it refuses. *)
Theorem json_filter_accepted_object self qs (s : string) (d : list (string * pyval))
    (valid_lookups : list string) (k v : pyval) (name : string) :
  json_loads s = Some (PDict d) ->
  JSONValueFilter._valid_lookups self qs = Ok valid_lookups ->
  dict_get d "key" = Some k ->
  dict_get d "value" = Some v ->
  lookup_of self (PDict d) = PStr name ->
  In name valid_lookups ->
  exists calls,
    calls = (if is_str v
             then [annotate_call "field_val" (KeyTextTransform k (field_name self));
                   filter_call ("field_val__" ++ name) (ArgValue v)]
             else [filter_call (field_name self ++ "__" ++ py_str k ++ "__" ++ name)
                     (ArgValue v)])
    /\ JSONValueFilter.filter self qs (PStr s) =
       match first_refusal (model qs) calls with
       | None => Ok (extend qs calls)
       | Some e => Raise (orm_raise e)
       end.
Proof.
  intros Hs Hvl Hk Hv Hl Hname. eexists. split; [reflexivity|].
  rewrite (JSONValueFilter_filter_decoded self qs s _ valid_lookups _ Hs Hvl eq_refl).
  cbn [JSONValueFilter.filter_loop]. unfold JSONValueFilter.filter_entry.
  assert (in_EMPTY_VALUES (PDict d) = false) as ->.
  { destruct d; [discriminate Hk | done]. }
  cbn [py_contains py_get py_getitem]. cbn [lookup_of] in Hl.
  rewrite !dict_has_as_get, Hk, Hv, Hl. simpl.
  unfold in_dict_keys. simpl.
  rewrite (proj2 (str_among_keys name valid_lookups) Hname). simpl.
  unfold qs_annotate, qs_filter, qs_call.
  destruct (is_str v); simpl.
  - destruct (orm_refuses (model qs) (annotate_call _ _)); simpl; [done|].
    destruct (orm_refuses (model qs) (filter_call _ _)); simpl; [done|].
    by rewrite extend_extend.
  - by destruct (orm_refuses (model qs) (filter_call _ _)).
Qed.

(** The loop over a list that starts with the entries of a text the filter
    gets through goes on, from the queryset that text gives, with the
    entries after them. *)
Lemma filter_after_prefix self qs (s s_pre : string) (pre rest : list pyval) :
  json_loads s = Some (PList (pre ++ rest)%list) ->
  json_loads s_pre = Some (PList pre) ->
  is_Ok (JSONValueFilter.filter self qs (PStr s_pre)) = true ->
  exists valid_lookups qs',
    JSONValueFilter.filter self qs (PStr s) =
    JSONValueFilter.filter_loop self valid_lookups qs' rest.
Proof.
  intros Hs Hpre Hok.
  destruct (JSONValueFilter._valid_lookups self qs) as [vl|e] eqn:Hvl.
  - rewrite (JSONValueFilter_filter_decoded self qs s_pre _ vl _ Hpre Hvl eq_refl) in Hok.
    rewrite (JSONValueFilter_filter_decoded self qs s _ vl _ Hs Hvl eq_refl).
    rewrite filter_loop_app.
    destruct (JSONValueFilter.filter_loop self vl qs pre) as [qs'|e]; [|discriminate].
    by exists vl, qs'.
  - exfalso. revert Hok. unfold JSONValueFilter.filter.
    assert (in_EMPTY_VALUES (PStr s_pre) = false) as ->.
    { destruct s_pre; [|done]. rewrite json_loads_empty in Hpre. discriminate. }
    by rewrite Hvl.
Qed.

(** X14. The first entry the loop turns down decides the error.  After
    entries the filter gets through, a non-empty object without ["key"] or
    without ["value"] raises the [ValidationError] about the members,
    whatever follows it in the list. *)
Theorem json_filter_first_missing_member self qs (s s_pre : string)
    (pre post : list pyval) (d : list (string * pyval)) :
  json_loads s = Some (PList (pre ++ PDict d :: post)%list) ->
  json_loads s_pre = Some (PList pre) ->
  is_Ok (JSONValueFilter.filter self qs (PStr s_pre)) = true ->
  d <> [] ->
  lacks_key_or_value (PDict d) = true ->
  JSONValueFilter.filter self qs (PStr s) =
    Raise (ValidationError JSONValueFilter.msg_key_value).
Proof.
  intros Hs Hpre Hok Hne Hlack.
  destruct (filter_after_prefix self qs s s_pre pre (PDict d :: post) Hs Hpre Hok)
    as (vl & qs' & ->).
  cbn [JSONValueFilter.filter_loop]. by rewrite missing_member_is_rejected.
Qed.

(** X15. After entries the filter gets through, an object with both members
    whose lookup is hashable and not registered on the field raises the
    [ValidationError] that quotes the lookup and the field name and lists
    the registered lookups, whatever follows it in the list. *)
Theorem json_filter_first_unregistered_lookup self qs (s s_pre : string)
    (valid_lookups : list string) (pre post : list pyval) (d : list (string * pyval)) :
  json_loads s = Some (PList (pre ++ PDict d :: post)%list) ->
  json_loads s_pre = Some (PList pre) ->
  is_Ok (JSONValueFilter.filter self qs (PStr s_pre)) = true ->
  JSONValueFilter._valid_lookups self qs = Ok valid_lookups ->
  lacks_key_or_value (PDict d) = false ->
  hashable (lookup_of self (PDict d)) = true ->
  ~ registered valid_lookups (lookup_of self (PDict d)) ->
  JSONValueFilter.filter self qs (PStr s) =
    Raise (ValidationError
             ("Lookup expression " ++ dq ++ py_str (lookup_of self (PDict d)) ++ dq
                ++ " not allowed for field " ++ dq ++ field_name self ++ dq
                ++ ". Valid expressions: " ++ String.concat ", " valid_lookups)).
Proof.
  intros Hs Hpre Hok Hvl Hboth Hhash Hnot.
  rewrite (JSONValueFilter_filter_decoded self qs s_pre _ valid_lookups _ Hpre Hvl eq_refl)
    in Hok.
  rewrite (JSONValueFilter_filter_decoded self qs s _ valid_lookups _ Hs Hvl eq_refl).
  rewrite filter_loop_app.
  destruct (JSONValueFilter.filter_loop self valid_lookups qs pre) as [qs'|e];
    [|discriminate].
  cbn [mbind result_bind JSONValueFilter.filter_loop].
  by rewrite unregistered_lookup_is_rejected.
Qed.

End JSONFiltering.

Section TagFiltering.
Context `{Host}.
Implicit Types (self : Filter) (qs : QuerySet) (st : Store).

Lemma TagsFilter_filter_some self qs (keys : list string) :
  TagsFilter.filter self qs (Some keys) = TagsFilter.filter_loop qs keys.
Proof. unfold TagsFilter.filter. by destruct keys. Qed.

Lemma TagsFilter_filter_loop_app (l1 l2 : list string) qs st :
  TagsFilter.filter_loop qs (l1 ++ l2)%list st =
  (qs' ← TagsFilter.filter_loop qs l1; TagsFilter.filter_loop qs' l2) st.
Proof.
  revert qs. induction l1 as [|key rest IH]; intros qs; [done|].
  cbn [TagsFilter.filter_loop app]. unfold mbind, DB_bind.
  pose proof (TagsFilter_filter_key_store qs key st) as Hst.
  destruct (TagsFilter.filter_key qs key st) as [st' [qs1|e]]; simpl in Hst; subst st'.
  - rewrite IH. done.
  - done.
Qed.

(** X16. Filtering by a list of keys is filtering by a first part of the
    list and then, on the queryset that gives, by the rest. *)
Theorem tags_filter_of_concatenation self qs (l1 l2 : list string) st :
  TagsFilter.filter self qs (Some (l1 ++ l2)%list) st =
  (qs' ← TagsFilter.filter self qs (Some l1);
   TagsFilter.filter self qs' (Some l2)) st.
Proof.
  rewrite !TagsFilter_filter_some, TagsFilter_filter_loop_app.
  unfold mbind, DB_bind.
  destruct (TagsFilter.filter_loop qs l1 st) as [st' [qs'|e]]; [|done].
  by rewrite TagsFilter_filter_some.
Qed.

(** X17. Two keys whose tags are in the same synonym group restrict the
    queryset in the same way: filtering by a tag and filtering by one of
    its synonyms have the same outcome. *)
Theorem tags_filter_synonyms_agree self qs (k1 k2 group : string) (r1 r2 : TagRow) st :
  Tag_objects st !! k1 = Some r1 ->
  Tag_objects st !! k2 = Some r2 ->
  tag_synonym_group r1 = Some group ->
  tag_synonym_group r2 = Some group ->
  TagsFilter.filter self qs (Some [k1]) st = TagsFilter.filter self qs (Some [k2]) st.
Proof.
  intros H1 H2 Hg1 Hg2. rewrite !TagsFilter_filter_some.
  cbn [TagsFilter.filter_loop].
  unfold TagsFilter.filter_key, Tag_objects_get, tags_all, mbind, DB_bind.
  by rewrite H1, H2, Hg1, Hg2.
Qed.

Lemma TagsFilter_filter_key_outcome qs qs2 (key : string) st :
  model qs2 = model qs ->
  match (TagsFilter.filter_key qs key st).2 with
  | Ok qs' =>
      exists rs,
        qs' = restrict qs rs
        /\ TagsFilter.filter_key qs2 key st = (st, Ok (restrict qs2 rs))
  | Raise e => TagsFilter.filter_key qs2 key st = (st, Raise e)
  end.
Proof.
  intros Hm. rewrite !TagsFilter_filter_key_cases.
  destruct (Tag_objects st !! key) as [row|]; [|done].
  unfold qs_call. rewrite Hm. simpl.
  destruct (orm_refuses (model qs) _); [done|].
  by exists [two_case_restriction st key].
Qed.

Lemma TagsFilter_filter_loop_outcome (keys : list string) qs qs2 st :
  model qs2 = model qs ->
  match (TagsFilter.filter_loop qs keys st).2 with
  | Ok qs' =>
      exists rs,
        qs' = restrict qs rs
        /\ TagsFilter.filter_loop qs2 keys st = (st, Ok (restrict qs2 rs))
  | Raise e => TagsFilter.filter_loop qs2 keys st = (st, Raise e)
  end.
Proof.
  revert qs qs2. induction keys as [|key rest IH]; intros qs qs2 Hm.
  - simpl. exists []. by rewrite !restrict_nil.
  - cbn [TagsFilter.filter_loop]. unfold mbind, DB_bind.
    pose proof (TagsFilter_filter_key_store qs key st) as Hst.
    pose proof (TagsFilter_filter_key_outcome qs qs2 key st Hm) as Hkey.
    destruct (TagsFilter.filter_key qs key st) as [st' [qs1|e]];
      simpl in Hst, Hkey; subst st'.
    + destruct Hkey as (r1 & -> & ->).
      specialize (IH (restrict qs r1) (restrict qs2 r1) Hm).
      destruct (TagsFilter.filter_loop (restrict qs r1) rest st) as [st' [qs'|e]];
        simpl in *.
      * destruct IH as (r2 & -> & ->). exists (r1 ++ r2)%list.
        by rewrite !restrict_restrict.
      * done.
    + by rewrite Hkey.
Qed.

(** X18. The outcome of [TagsFilter.filter] does not depend on the calls
    already on the queryset: on two querysets of the same model and the
    same store it raises the same error, or places the same tag
    restrictions, and nothing else, on each. *)
Theorem tags_filter_outcome_is_uniform self qs qs2 (keys : option (list string)) st :
  model qs2 = model qs ->
  match (TagsFilter.filter self qs keys st).2 with
  | Ok qs' =>
      exists rs,
        qs' = restrict qs rs
        /\ TagsFilter.filter self qs2 keys st = (st, Ok (restrict qs2 rs))
  | Raise e => TagsFilter.filter self qs2 keys st = (st, Raise e)
  end.
Proof.
  intros Hm. destruct keys as [keys|].
  - rewrite !TagsFilter_filter_some. by apply TagsFilter_filter_loop_outcome.
  - simpl. exists []. by rewrite !restrict_nil.
Qed.

End TagFiltering.

(** * The further properties on the sample data *)

Lemma valid_lookups_plain_field_sample :
  @JSONValueFilter._valid_lookups reference_host
     (DocumentFilterSet.meta Sample.fs) Sample.documents
  = Ok Models.json_lookups.
Proof.
  apply (@valid_lookups_plain_field reference_host
           (DocumentFilterSet.meta Sample.fs) Sample.documents).
  reflexivity.
Defined.

Lemma valid_lookups_related_field_sample :
  @JSONValueFilter._valid_lookups reference_host
     (TagFilterSet.with_documents_meta Sample.fs) Sample.tags
  = Ok Models.json_lookups.
Proof.
  apply (@valid_lookups_related_field reference_host
           (TagFilterSet.with_documents_meta Sample.fs) Sample.tags "documents" "meta");
    reflexivity.
Defined.

Lemma json_filter_only_adds_own_calls_sample :
  exists calls,
    extend Texts.filtered_documents
      [annotate_call "field_val" (KeyTextTransform (PStr "k") "meta");
       filter_call "field_val__exact" (ArgValue (PStr "v"));
       filter_call "meta__n__exact" (ArgValue (PInt 1))]
    = extend Texts.filtered_documents calls
    /\ forall valid_lookups,
         @JSONValueFilter._valid_lookups reference_host
            (DocumentFilterSet.meta Sample.fs) Texts.filtered_documents
         = Ok valid_lookups ->
         Forall (@own_call reference_host (DocumentFilterSet.meta Sample.fs) valid_lookups)
           calls.
Proof.
  apply (@json_filter_only_adds_own_calls reference_host
           (DocumentFilterSet.meta Sample.fs) Texts.filtered_documents
           (PStr Texts.two_objects)).
  vm_compute. reflexivity.
Defined.

Lemma json_filter_outcome_is_uniform_sample :
  match @JSONValueFilter.filter reference_host
          (DocumentFilterSet.meta Sample.fs) Sample.documents (PStr Texts.two_objects) with
  | Ok qs' =>
      exists calls,
        qs' = extend Sample.documents calls
        /\ @JSONValueFilter.filter reference_host
             (DocumentFilterSet.meta Sample.fs) Texts.filtered_documents
             (PStr Texts.two_objects)
           = Ok (extend Texts.filtered_documents calls)
  | Raise e =>
      @JSONValueFilter.filter reference_host
        (DocumentFilterSet.meta Sample.fs) Texts.filtered_documents
        (PStr Texts.two_objects) = Raise e
  end.
Proof.
  apply (@json_filter_outcome_is_uniform reference_host).
  reflexivity.
Defined.

Lemma json_filter_of_concatenation_sample :
  @JSONValueFilter.filter reference_host
     (DocumentFilterSet.meta Sample.fs) Sample.documents (PStr Texts.two_objects)
  = (qs' ← @JSONValueFilter.filter reference_host
             (DocumentFilterSet.meta Sample.fs) Sample.documents
             (PStr ("[" ++ Sample.object_text ++ "]"));
     @JSONValueFilter.filter reference_host
       (DocumentFilterSet.meta Sample.fs) qs' (PStr ("[" ++ Texts.number_object ++ "]"))).
Proof.
  apply (@json_filter_of_concatenation reference_host _ _ _ _ _
           [PDict Sample.object_members]
           [PDict [("key", PStr "n"); ("value", PInt 1)]]);
    vm_compute; reflexivity.
Defined.

Lemma json_filter_skips_empty_entries_sample :
  @JSONValueFilter.filter reference_host
     (DocumentFilterSet.meta Sample.fs) Sample.documents (PStr Texts.with_empties)
  = @JSONValueFilter.filter reference_host
      (DocumentFilterSet.meta Sample.fs) Sample.documents
      (PStr ("[" ++ Sample.object_text ++ "]")).
Proof.
  apply (@json_filter_skips_empty_entries reference_host _ _ _ _
           [PDict []; PDict Sample.object_members; PNone]);
    vm_compute; reflexivity.
Defined.

Lemma json_filter_scalar_raises_TypeError_sample :
  @JSONValueFilter.filter reference_host
     (DocumentFilterSet.meta Sample.fs) Sample.documents (PStr "null")
  = Raise TypeError.
Proof.
  apply (@json_filter_scalar_raises_TypeError reference_host _ _ _ PNone);
    vm_compute; reflexivity.
Defined.

Lemma json_filter_string_is_rejected_sample :
  @JSONValueFilter.filter reference_host
     (DocumentFilterSet.meta Sample.fs) Sample.documents (PStr (Texts.quoted "abc"))
  = Raise (ValidationError JSONValueFilter.msg_key_value).
Proof.
  apply (@json_filter_string_is_rejected reference_host
           (DocumentFilterSet.meta Sample.fs) Sample.documents
           (Texts.quoted "abc") "abc");
    vm_compute; reflexivity.
Defined.

Lemma json_filter_list_entry_raises_AttributeError_sample :
  @JSONValueFilter.filter reference_host
     (DocumentFilterSet.meta Sample.fs) Sample.documents (PStr Texts.key_value_list)
  = Raise AttributeError.
Proof.
  apply (@json_filter_list_entry_raises_AttributeError reference_host _ _ _
           [PStr "key"; PStr "value"] []).
  - vm_compute. reflexivity.
  - simpl. auto.
  - simpl. auto.
  - vm_compute. reflexivity.
Defined.

Lemma json_filter_reads_three_members_sample :
  @JSONValueFilter.filter reference_host
     (DocumentFilterSet.meta Sample.fs) Sample.documents (PStr Sample.object_text)
  = @JSONValueFilter.filter reference_host
      (DocumentFilterSet.meta Sample.fs) Sample.documents (PStr Texts.extra_member).
Proof.
  apply (@json_filter_reads_three_members reference_host _ _ _ _
           Sample.object_members
           [("key", PStr "k"); ("value", PStr "v"); ("extra", PInt 1)]);
    try discriminate; vm_compute; reflexivity.
Defined.

Lemma json_filter_default_lookup_sample :
  @JSONValueFilter.filter reference_host
     (DocumentFilterSet.meta Sample.fs) Sample.documents (PStr Sample.object_text)
  = @JSONValueFilter.filter reference_host
      (DocumentFilterSet.meta Sample.fs) Sample.documents (PStr Texts.exact_lookup).
Proof.
  apply (@json_filter_default_lookup reference_host
           (DocumentFilterSet.meta Sample.fs) Sample.documents
           Sample.object_text Texts.exact_lookup Sample.object_members);
    try discriminate; vm_compute; reflexivity.
Defined.

Lemma json_filter_accepted_object_sample :
  exists calls,
    calls = [annotate_call "field_val" (KeyTextTransform (PStr "k") "meta");
             filter_call "field_val__exact" (ArgValue (PStr "v"))]
    /\ @JSONValueFilter.filter reference_host
         (DocumentFilterSet.meta Sample.fs) Sample.documents (PStr Sample.object_text)
       = match @first_refusal reference_host (model Sample.documents) calls with
         | None => Ok (extend Sample.documents calls)
         | Some e => Raise (orm_raise e)
         end.
Proof.
  apply (@json_filter_accepted_object reference_host
           (DocumentFilterSet.meta Sample.fs) Sample.documents Sample.object_text
           Sample.object_members Models.json_lookups (PStr "k") (PStr "v") "exact");
    try (vm_compute; reflexivity).
  simpl. auto.
Defined.

Lemma json_filter_first_missing_member_sample :
  @JSONValueFilter.filter reference_host
     (DocumentFilterSet.meta Sample.fs) Sample.documents (PStr Sample.missing_value_text)
  = Raise (ValidationError JSONValueFilter.msg_key_value).
Proof.
  apply (@json_filter_first_missing_member reference_host
           (DocumentFilterSet.meta Sample.fs) Sample.documents Sample.missing_value_text
           ("[" ++ Sample.object_text ++ "]")
           [PDict Sample.object_members] [] [("key", PInt 1)]);
    try discriminate; vm_compute; reflexivity.
Defined.

Lemma bogus_not_registered :
  ~ registered Models.json_lookups
      (lookup_of (DocumentFilterSet.meta Sample.fs)
         (PDict [("key", PStr "k"); ("value", PStr "v"); ("lookup", PStr "bogus")])).
Proof.
  intros (name & Heq & Hin). injection Heq as <-.
  simpl in Hin. repeat (destruct Hin as [Hin|Hin]; [discriminate Hin|]). exact Hin.
Defined.

Lemma json_filter_first_unregistered_lookup_sample :
  exists msg,
    @JSONValueFilter.filter reference_host
       (DocumentFilterSet.meta Sample.fs) Sample.documents (PStr Texts.bogus_lookup)
    = Raise (ValidationError msg).
Proof.
  eexists.
  apply (@json_filter_first_unregistered_lookup reference_host
           (DocumentFilterSet.meta Sample.fs) Sample.documents Texts.bogus_lookup
           ("[" ++ Sample.object_text ++ "]")
           Models.json_lookups [PDict Sample.object_members] []
           [("key", PStr "k"); ("value", PStr "v"); ("lookup", PStr "bogus")]);
    try exact bogus_not_registered; vm_compute; reflexivity.
Defined.

Lemma tags_filter_synonyms_agree_sample :
  @TagsFilter.filter reference_host (DocumentFilterSet.tags Sample.fs) Sample.documents
    (Some ["red"]) Sample.store
  = @TagsFilter.filter reference_host (DocumentFilterSet.tags Sample.fs) Sample.documents
      (Some ["crimson"]) Sample.store.
Proof.
  apply (@tags_filter_synonyms_agree reference_host _ _ "red" "crimson" "g1"
           {| tag_synonym_group := Some "g1" |} {| tag_synonym_group := Some "g1" |});
    vm_compute; reflexivity.
Defined.

Lemma tags_filter_outcome_is_uniform_sample :
  match (@TagsFilter.filter reference_host (DocumentFilterSet.tags Sample.fs)
           Sample.documents (Some ["red"; "blue"]) Sample.store).2 with
  | Ok qs' =>
      exists rs,
        qs' = restrict Sample.documents rs
        /\ @TagsFilter.filter reference_host (DocumentFilterSet.tags Sample.fs)
             Texts.filtered_documents (Some ["red"; "blue"]) Sample.store
           = (Sample.store, Ok (restrict Texts.filtered_documents rs))
  | Raise e =>
      @TagsFilter.filter reference_host (DocumentFilterSet.tags Sample.fs)
        Texts.filtered_documents (Some ["red"; "blue"]) Sample.store
      = (Sample.store, Raise e)
  end.
Proof.
  apply (@tags_filter_outcome_is_uniform reference_host).
  reflexivity.
Defined.
